(** * Social-Media-Analyzer: the Express back end (Backend/app.js)

    A shallow embedding of the two upload handlers, of the Gemini client
    [getSocialMediaAnalysis] and of the [NodeCanvasFactory] helper, followed
    by the properties the specification states about them.

    The handlers are sequential programs over
    - the staging directory (a finite map from paths to file contents),
    - the process environment (the API key),
    - third-party libraries and services (pdf-parse, pdf.js, node-canvas,
      tesseract.js, axios), whose answers are not fixed by the repository.
    The libraries are therefore oracles over an abstract external state: every
    theorem quantifies over all of them.  Each library call, file-system call,
    console line of the source and HTTP reply is recorded, in program order,
    as an event.

    The model runs one request at a time: nothing but the request touches the
    staging directory while it runs, and [unlinkSync] of a file that exists
    succeeds.  The middleware ahead of the routes ([cors], [express.json]) is
    not part of it; a request is what reaches [upload.single('file')].

    What [upload.single('file')] and Express do with a request is fixed by
    how the source sets them up, so it is modelled, in two steps: [app_post]
    is a route on an upload multer lets through, and [route] is the route on
    any request, with the file parts multer skips and those it refuses. *)

From Stdlib Require Import NArith ZArith QArith String Ascii.
From Stdlib Require Import DecimalString DecimalN DecimalPos.
From stdpp Require Import base option list gmap.

Local Open Scope N_scope.
Local Open Scope list_scope.

(** ** JavaScript strings

    A JS string is a sequence of UTF-16 code units. *)

Module JsString.

Abbreviation jsstring := (list N).

(** An ASCII literal of the source. *)
Fixpoint js (s : string) : jsstring :=
  match s with
  | EmptyString => []
  | String a r => N_of_ascii a :: js r
  end.

Definition dquote : jsstring := [34].
Definition newline : jsstring := [10].

(** [String(n)] for a non-negative integer [n]: its decimal digits. *)
Definition of_N (n : N) : jsstring := js (NilZero.string_of_uint (N.to_uint n)).

Fixpoint eqb (a b : jsstring) : bool :=
  match a, b with
  | [], [] => true
  | x :: a', y :: b' => (x =? y) && eqb a' b'
  | _, _ => false
  end.

(** WhiteSpace and LineTerminator of ECMAScript, the code points that
    [String.prototype.trim] strips: TAB, LF, VT, FF, CR, SP, NBSP, U+1680,
    U+2000..U+200A, LS, PS, U+202F, U+205F, U+3000 and the BOM. *)
Definition isWhiteSpace (c : N) : bool :=
  (c =? 9) || (c =? 10) || (c =? 11) || (c =? 12) || (c =? 13) || (c =? 32)
  || (c =? 160) || (c =? 5760) || ((8192 <=? c) && (c <=? 8202))
  || (c =? 8232) || (c =? 8233) || (c =? 8239) || (c =? 8287)
  || (c =? 12288) || (c =? 65279).

Fixpoint trimStart (s : jsstring) : jsstring :=
  match s with
  | [] => []
  | c :: r => if isWhiteSpace c then trimStart r else s
  end.

Definition trimEnd (s : jsstring) : jsstring := rev (trimStart (rev s)).

Definition trim (s : jsstring) : jsstring := trimEnd (trimStart s).

(** ToBoolean on a string: the empty string is the only falsy one. *)
Definition truthy (s : jsstring) : bool :=
  match s with [] => false | _ :: _ => true end.

End JsString.
Export JsString.

(** ** JavaScript values

    Form fields as multer builds them (a string, or an array or object when
    a field name repeats or nests), JSON sent to and received from the
    Gemini endpoint, and the [analysis] member of the reply.  An object
    lists each of its keys once. *)

#[warnings="-register-all"]
Inductive jsval : Type :=
| VUndefined
| VNull
| VBool (b : bool)
| VNumber (q : Q)
| VString (s : jsstring)
| VArray (items : list jsval)
| VObject (fields : list (jsstring * jsval)).

Module JsVal.

Definition truthy (v : jsval) : bool :=
  match v with
  | VUndefined | VNull => false
  | VBool b => b
  | VNumber q => negb (Qeq_bool q 0)
  | VString s => JsString.truthy s
  | VArray _ | VObject _ => true
  end.

Definition nullish (v : jsval) : bool :=
  match v with VUndefined | VNull => true | _ => false end.

(** [v === "lit"]: strict equality with a string never converts. *)
Definition strict_eq_string (v : jsval) (lit : jsstring) : bool :=
  match v with
  | VString s => JsString.eqb s lit
  | _ => false
  end.

Fixpoint assoc (k : jsstring) (fields : list (jsstring * jsval)) : jsval :=
  match fields with
  | [] => VUndefined
  | (k', v) :: r => if JsString.eqb k' k then v else assoc k r
  end.

(** [v.name] on a value that is neither null nor undefined, for a name
    that is no built-in property (the source reads [candidates],
    [content], [parts] and [text]). *)
Definition member (v : jsval) (name : jsstring) : jsval :=
  match v with
  | VObject fields => assoc name fields
  | _ => VUndefined
  end.

(** [v[0]] on a value that is neither null nor undefined. *)
Definition first (v : jsval) : jsval :=
  match v with
  | VArray (x :: _) => x
  | VString (c :: _) => VString [c]
  | VObject fields => assoc (js "0") fields
  | _ => VUndefined
  end.

End JsVal.

(** ** Run-time data *)

Abbreviation path := (list N).
Abbreviation bytes := (list Byte.byte).

(** A thrown [Error]: its [message], and the body of [error.response] when
    the error carries an HTTP response (axios errors do). *)
Record exn : Type := Error' { message : jsstring; response : option jsval }.

Definition Error (msg : jsstring) : exn := {| message := msg; response := None |}.

(** The engine's TypeError for a property read or write on [null] or
    [undefined], named by [what]. *)
Definition TypeError (action what name : string) : exn :=
  Error (js "Cannot " ++ js action ++ js " properties of " ++ js what ++ js " (" ++
         js (if String.eqb action "read" then "reading" else "setting") ++
         js " '" ++ js name ++ js "')").

Inductive result (A : Type) : Type :=
| Ok (a : A)
| Throw (e : exn).
Arguments Ok {A} a.
Arguments Throw {A} e.

(** Objects handed out by pdf.js and node-canvas: opaque references, plus
    the members the source reads. *)
Record PDFDocument : Type := { numPages : nat; doc_ref : N }.
Record PDFPage : Type := { page_ref : N }.
Record Viewport : Type := { width : Q; height : Q; viewport_ref : N }.
Record Canvas : Type := { canvas_ref : N }.
Record Context2d : Type := { context_ref : N }.

(** What [NodeCanvasFactory.create] returns; [destroy] nulls both members. *)
Record CanvasAndContext : Type :=
  { canvas : option Canvas; context : option Context2d }.

(** The first argument of [Tesseract.recognize]. *)
Inductive ImageSource : Type :=
| FromBuffer (b : bytes)
| FromPath (p : path).

(** Calls that leave the repository, indexed by what they give back. *)
Inductive Extern : Type -> Type :=
| PdfParse (dataBuffer : bytes) : Extern jsstring
| GetDocument (data : bytes) : Extern PDFDocument
| GetPage (doc : PDFDocument) (i : nat) : Extern PDFPage
| GetViewport (page : PDFPage) (scale : Q) : Extern Viewport
| CreateCanvas (w h : Q) : Extern Canvas
| GetContext (c : Canvas) (kind : jsstring) : Extern Context2d
| SetWidth (c : Canvas) (w : Q) : Extern unit
| SetHeight (c : Canvas) (h : Q) : Extern unit
| Render (page : PDFPage) (canvasContext : option Context2d) (viewport : Viewport)
  : Extern unit
| ToBuffer (c : Canvas) (mime : jsstring) : Extern bytes
| Recognize (image : ImageSource) (lang : jsstring) : Extern jsstring
| PageCleanup (page : PDFPage) : Extern unit
| AxiosPost (url : jsstring) (data config : jsval) : Extern jsval.

Inductive FsOp : Type :=
| WriteFile (p : path) (content : bytes)
| ReadFileSync (p : path)
| ExistsSync (p : path)
| UnlinkSync (p : path).

Inductive LogArg : Type :=
| LStr (s : jsstring)
| LVal (v : jsval)
| LExn (e : exn).

Inductive Body : Type :=
| BText (s : jsstring)
| BJson (text : jsstring) (analysis : jsval).

Inductive Event : Type :=
| ELog (args : list LogArg)
| EError (args : list LogArg)
| EFs (op : FsOp)
| ECall {A : Type} (c : Extern A) (r : result A)
| ESend (status : nat) (body : Body).

(** An upload that multer lets through, in multer's own terms: the file
    it accepts, if any, with the [file.originalname] multer reports for it
    and its bytes, and the text fields as multer collects them into
    [req.body]; then the request object multer hands on, with [req.file] and
    [req.body].  multer drops a file part that has no file name, so the
    [originalname] of an upload that arises is never empty; nothing below
    needs it. *)
Record FilePart : Type := { originalname : jsstring; content : bytes }.
Record Upload : Type :=
  { file_part : option FilePart; fields : gmap jsstring jsval }.

Record File : Type := { file_path : path }.
Record Request : Type := { file : option File; body : gmap jsstring jsval }.

(** A request as it arrives, before multer has looked at it: the file
    parts of the multipart body in the order they come, each with the field
    name and the file name busboy reports for it, and the text fields as
    multer collects them into [req.body]. *)
Record FileField : Type :=
  { fieldname : jsstring; filename : jsstring; stream : bytes }.
Record Incoming : Type :=
  { file_parts : list FileField; text_fields : gmap jsstring jsval }.

(** [if (!filename)] in multer: a file part with a file name. *)
Definition named (f : FileField) : bool :=
  match filename f with [] => false | _ :: _ => true end.

(** [req.body.name]: a missing member reads as [undefined]. *)
Definition field (b : gmap jsstring jsval) (name : string) : jsval :=
  default VUndefined (b !! js name).

(** ** The world and the monad of handlers *)

(** The staging directory, the one environment variable the handlers read,
    the clock in milliseconds, and the state of everything outside the
    process. *)
Record World (Ext : Type) : Type :=
  { files : gmap path bytes;
    GEMINI_API_KEY : option jsstring;
    clock : N;
    ext : Ext }.
Arguments files {Ext} w.
Arguments GEMINI_API_KEY {Ext} w.
Arguments clock {Ext} w.
Arguments ext {Ext} w.

(** How the outside answers a call, and what state it is left in. *)
Definition Library (Ext : Type) : Type :=
  forall A : Type, Extern A -> Ext -> result A * Ext.

(** A computation: from a world to a value or a thrown error, the world
    it leaves, and the events it emitted, oldest first. *)
Record Outcome (Ext A : Type) : Type :=
  { value : result A; final : World Ext; emitted : list Event }.
Arguments value {Ext A} o.
Arguments final {Ext A} o.
Arguments emitted {Ext A} o.

Definition M (Ext A : Type) : Type := World Ext -> Outcome Ext A.

Section Monad.
Context {Ext : Type}.

Definition ret {A} (a : A) : M Ext A :=
  fun w => {| value := Ok a; final := w; emitted := [] |}.

Definition throw {A} (e : exn) : M Ext A :=
  fun w => {| value := Throw e; final := w; emitted := [] |}.

Definition bind {A B} (m : M Ext A) (k : A -> M Ext B) : M Ext B :=
  fun w =>
    let o := m w in
    match value o with
    | Ok a =>
        let o' := k a (final o) in
        {| value := value o'; final := final o';
           emitted := emitted o ++ emitted o' |}
    | Throw e =>
        {| value := Throw e; final := final o; emitted := emitted o |}
    end.

(** [try { body } catch (e) { handler }] *)
Definition try_catch {A} (body : M Ext A) (handler : exn -> M Ext A) : M Ext A :=
  fun w =>
    let o := body w in
    match value o with
    | Ok a => o
    | Throw e =>
        let o' := handler e (final o) in
        {| value := value o'; final := final o';
           emitted := emitted o ++ emitted o' |}
    end.

(** [try { body } finally { cleanup }]: the cleanup runs whatever the
    body did; the body's completion stands unless the cleanup throws. *)
Definition try_finally {A} (body : M Ext A) (cleanup : M Ext unit) : M Ext A :=
  fun w =>
    let o := body w in
    let o' := cleanup (final o) in
    {| value := match value o' with Ok _ => value o | Throw e => Throw e end;
       final := final o';
       emitted := emitted o ++ emitted o' |}.

Definition emit (e : Event) : M Ext unit :=
  fun w => {| value := Ok tt; final := w; emitted := [e] |}.

End Monad.

Declare Scope js_scope.
Delimit Scope js_scope with js_m.
Notation "x <- m ; k" := (bind m (fun x => k))
  (at level 100, m at next level, right associativity) : js_scope.
Notation "m ;; k" := (bind m (fun _ => k))
  (at level 100, right associativity) : js_scope.

Local Open Scope js_scope.

(** ** The server *)

Section Server.
Context {Ext : Type} (lib : Library Ext).
(** [__dirname] of the back end. *)
Context (dirname : jsstring).

(** *** Primitives *)

Definition console_log (args : list LogArg) : M Ext unit := emit (ELog args).
Definition console_error (args : list LogArg) : M Ext unit := emit (EError args).

(** Any call into a library or service: the oracle answers, the answer is
    recorded. *)
Definition extern {A} (c : Extern A) : M Ext A :=
  fun w =>
    let a := lib A c (ext w) in
    {| value := fst a;
       final := {| files := files w; GEMINI_API_KEY := GEMINI_API_KEY w;
                   clock := clock w; ext := snd a |};
       emitted := [ECall c (fst a)] |}.

Definition ENOENT (syscall : string) (p : path) : exn :=
  Error (js "ENOENT: no such file or directory, " ++ js syscall ++
         js " '" ++ p ++ js "'").

Definition readFileSync (p : path) : M Ext bytes :=
  fun w =>
    {| value := match files w !! p with
                | Some b => Ok b
                | None => Throw (ENOENT "open" p)
                end;
       final := w; emitted := [EFs (ReadFileSync p)] |}.

Definition existsSync (p : path) : M Ext bool :=
  fun w =>
    {| value := Ok (match files w !! p with Some _ => true | None => false end);
       final := w; emitted := [EFs (ExistsSync p)] |}.

Definition unlinkSync (p : path) : M Ext unit :=
  fun w =>
    match files w !! p with
    | Some _ =>
        {| value := Ok tt;
           final := {| files := delete p (files w);
                       GEMINI_API_KEY := GEMINI_API_KEY w;
                       clock := clock w; ext := ext w |};
           emitted := [EFs (UnlinkSync p)] |}
    | None =>
        {| value := Throw (ENOENT "unlink" p); final := w;
           emitted := [EFs (UnlinkSync p)] |}
    end.

Definition writeFile (p : path) (b : bytes) : M Ext unit :=
  fun w =>
    {| value := Ok tt;
       final := {| files := <[p := b]> (files w);
                   GEMINI_API_KEY := GEMINI_API_KEY w;
                   clock := clock w; ext := ext w |};
       emitted := [EFs (WriteFile p b)] |}.

(** [Date.now()] *)
Definition Date_now : M Ext N :=
  fun w => {| value := Ok (clock w); final := w; emitted := [] |}.

(** [process.env.GEMINI_API_KEY] *)
Definition env_GEMINI_API_KEY : M Ext (option jsstring) :=
  fun w => {| value := Ok (GEMINI_API_KEY w); final := w; emitted := [] |}.

(** [res.status(s).send(text)] and [res.json({ text, analysis })]. *)
Definition res_send (status : nat) (text : jsstring) : M Ext unit :=
  emit (ESend status (BText text)).
Definition res_json (text : jsstring) (analysis : jsval) : M Ext unit :=
  emit (ESend 200 (BJson text analysis)).

(** A method call or member write on a member that may be [null]. *)
Definition nonnull {A} (o : option A) (action name : string) : M Ext A :=
  match o with
  | Some a => ret a
  | None => throw (TypeError action "null" name)
  end.

(** *** 1. Server and file storage setup *)

Definition uploadDir : path := dirname ++ js "/uploads".

(** [multer({ storage }).single('file')] on an upload it lets through,
    with the disk storage of the source: the destination is [uploadDir], the
    file name is [`${Date.now()}_${file.originalname}`].  With no file,
    nothing is stored and [req.file] stays undefined.  What multer does with
    the requests it refuses is in [single] below. *)
Definition upload_single (u : Upload) : M Ext Request :=
  match file_part u with
  | None => ret {| file := None; body := fields u |}
  | Some f =>
      now <- Date_now;
      let uniqueFilename := of_N now ++ js "_" ++ originalname f in
      let p := uploadDir ++ js "/" ++ uniqueFilename in
      writeFile p (content f);;
      ret {| file := Some {| file_path := p |}; body := fields u |}
  end.

(** *** 2. AI integration helper *)

Definition apiUrl (key : jsstring) : jsstring :=
  js "https://generativelanguage.googleapis.com/v1beta/models/gemini-1.5-flash-latest:generateContent?key="
  ++ key.

Definition prompt (text : jsstring) : jsstring :=
  js "You are a world-class social media strategist. Analyze the following post text. Your task is to:" ++ newline ++
  js "1. Correct any grammar and spelling mistakes to make it sound professional and clear." ++ newline ++
  js "2. Suggest a list of 5 to 10 relevant and trending hashtags to maximize reach." ++ newline ++
  js "3. Provide a short, actionable paragraph of advice on how to make the post more engaging." ++ newline ++
  newline ++
  js "Format your response in Markdown with clear headings for " ++
  dquote ++ js "Improved Text" ++ dquote ++ js ", " ++
  dquote ++ js "Suggested Hashtags" ++ dquote ++ js ", and " ++
  dquote ++ js "Engagement Advice" ++ dquote ++ js "." ++ newline ++
  newline ++
  js "Here is the post text:" ++ newline ++
  js "---" ++ newline ++
  text ++ newline ++
  js "---".

Definition requestBody (text : jsstring) : jsval :=
  VObject [(js "contents",
    VArray [VObject [(js "parts",
      VArray [VObject [(js "text", VString (prompt text))]])]])].

Definition requestConfig : jsval :=
  VObject [(js "headers",
    VObject [(js "Content-Type", VString (js "application/json"))])].

(** [a?.[0]] and [a?.name] *)
Definition opt_first (a : jsval) : jsval :=
  if JsVal.nullish a then VUndefined else JsVal.first a.
Definition opt_member (a : jsval) (name : string) : jsval :=
  if JsVal.nullish a then VUndefined else JsVal.member a (js name).

Definition typeof_nullish (a : jsval) : string :=
  match a with VNull => "null" | _ => "undefined" end.

(** [a.name] and [a[0]], which throw on null and undefined. *)
Definition get_member (a : jsval) (name : string) : M Ext jsval :=
  if JsVal.nullish a then throw (TypeError "read" (typeof_nullish a) name)
  else ret (JsVal.member a (js name)).
Definition get_first (a : jsval) : M Ext jsval :=
  if JsVal.nullish a then throw (TypeError "read" (typeof_nullish a) "0")
  else ret (JsVal.first a).

Definition analysis_request_line : jsstring :=
  js "[AI Service]: Requesting social media analysis from Gemini...".

Definition getSocialMediaAnalysis (text : jsstring) : M Ext jsval :=
  console_log [LStr analysis_request_line];;
  key <- env_GEMINI_API_KEY;
  if negb (JsString.truthy (default [] key)) then
    throw (Error (js "GEMINI_API_KEY is not defined in the environment variables."))
  else
    try_catch
      (data <- extern (AxiosPost (apiUrl (default [] key)) (requestBody text) requestConfig);
       candidates <- get_member data "candidates";
       let candidate := opt_first candidates in
       if JsVal.truthy candidate &&
          JsVal.truthy
            (opt_member (opt_first (opt_member (JsVal.member candidate (js "content")) "parts")) "text")
       then
         console_log [LStr (js "[AI Service]: Analysis received successfully.")];;
         content <- get_member candidate "content";
         parts <- get_member content "parts";
         part <- get_first parts;
         get_member part "text"
       else
         console_error [LStr (js "[AI Service Error]: Unexpected API response structure:"); LVal data];;
         throw (Error (js "Failed to parse analysis from the AI response.")))
      (fun error =>
         console_error
           [LStr (js "[AI Service Error]: API call failed.");
            match response error with
            | Some d => LVal d
            | None => LStr (message error)
            end];;
         throw (Error (js "AI analysis failed: " ++ message error))).

(** *** 3. Helper class for pdf.js in Node *)

Definition NodeCanvasFactory_create (w h : Q) : M Ext CanvasAndContext :=
  c <- extern (CreateCanvas w h);
  ctx <- extern (GetContext c (js "2d"));
  ret {| canvas := Some c; context := Some ctx |}.

Definition NodeCanvasFactory_reset (cc : CanvasAndContext) (w h : Q) : M Ext unit :=
  c <- nonnull (canvas cc) "set" "width";
  extern (SetWidth c w);;
  c <- nonnull (canvas cc) "set" "height";
  extern (SetHeight c h).

Definition NodeCanvasFactory_destroy (cc : CanvasAndContext) : M Ext CanvasAndContext :=
  c <- nonnull (canvas cc) "set" "width";
  extern (SetWidth c 0);;
  c <- nonnull (canvas cc) "set" "height";
  extern (SetHeight c 0);;
  ret {| canvas := None; context := None |}.

(** *** 4. API endpoints *)

(** The body of the page loop of the scanned branch, for page [i] and
    the text accumulated so far. *)
Definition ocr_page (doc : PDFDocument) (i : nat) (extractedText : jsstring)
  : M Ext jsstring :=
  console_log [LStr (js "[Scanned PDF]: Processing page " ++ of_N (N.of_nat i) ++ js "...")];;
  page <- extern (GetPage doc i);
  viewport <- extern (GetViewport page 2);
  canvasAndContext <- NodeCanvasFactory_create (width viewport) (height viewport);
  extern (Render page (context canvasAndContext) viewport);;
  c <- nonnull (canvas canvasAndContext) "read" "toBuffer";
  imageBuffer <- extern (ToBuffer c (js "image/png"));
  text <- extern (Recognize (FromBuffer imageBuffer) (js "eng"));
  let extractedText := extractedText ++ (text ++ newline) in
  extern (PageCleanup page);;
  NodeCanvasFactory_destroy canvasAndContext;;
  ret extractedText.

(** [for (let i = ...; i <= doc.numPages; i++)], by recursion on the
    number [doc.numPages + 1 - i] of pages left. *)
Fixpoint ocr_pages (doc : PDFDocument) (left : nat) (i : nat)
    (extractedText : jsstring) : M Ext jsstring :=
  match left with
  | O => ret extractedText
  | S left' =>
      extractedText <- ocr_page doc i extractedText;
      ocr_pages doc left' (S i) extractedText
  end.

Definition of_bool (b : bool) : jsstring := js (if b then "true" else "false").

(** [req.body.scanned === "true"] and [req.body.analyze === "true"]. *)
Definition isScanned (req : Request) : bool :=
  JsVal.strict_eq_string (field (body req) "scanned") (js "true").
Definition shouldAnalyze (req : Request) : bool :=
  JsVal.strict_eq_string (field (body req) "analyze") (js "true").

(** The [try] block of [/upload-pdf] up to "Text extraction complete.":
    what it leaves in [extractedText]. *)
Definition extract_pdf (req : Request) (filePath : path) : M Ext jsstring :=
  let isScanned := isScanned req in
  let shouldAnalyze := shouldAnalyze req in
  console_log [LStr (js "Processing mode: " ++
                     js (if isScanned then "SCANNED" else "STANDARD") ++
                     js ". Analysis requested: " ++ of_bool shouldAnalyze)];;
  dataBuffer <- readFileSync filePath;
  extractedText <-
    (if negb isScanned then
       console_log [LStr (js "[Standard PDF]: Extracting text...")];;
       extern (PdfParse dataBuffer)
     else
       console_log [LStr (js "[Scanned PDF]: Starting OCR process...")];;
       let data := dataBuffer in
       doc <- extern (GetDocument data);
       ocr_pages doc (numPages doc) 1 []);
  console_log [LStr (js "Text extraction complete.")];;
  ret extractedText.

(** [shouldAnalyze && extractedText.trim()] as a condition. *)
Definition wants_analysis (shouldAnalyze : bool) (extractedText : jsstring) : bool :=
  shouldAnalyze && JsString.truthy (trim extractedText).

(** The rest of the [try] block, the same in both handlers: the
    conditional call of the analysis client, and the reply. *)
Definition analyze_and_reply (shouldAnalyze : bool) (extractedText : jsstring)
  : M Ext unit :=
  analysisResult <-
    (if wants_analysis shouldAnalyze extractedText
     then getSocialMediaAnalysis extractedText
     else ret VNull);
  res_json extractedText analysisResult.

(** The [finally] block of both handlers. *)
Definition cleanup (filePath : path) : M Ext unit :=
  present <- existsSync filePath;
  if (present : bool) then
    unlinkSync filePath;;
    console_log [LStr (js "[Cleanup]: Deleted temporary file: " ++ filePath)]
  else ret tt.

Definition upload_pdf (req : Request) : M Ext unit :=
  console_log [LStr (newline ++ js "--- Received request for /upload-pdf ---")];;
  match file req with
  | None => res_send 400 (js "No file uploaded.")
  | Some f =>
      let filePath := file_path f in
      try_finally
        (try_catch
           (extractedText <- extract_pdf req filePath;
            analyze_and_reply (shouldAnalyze req) extractedText)
           (fun err =>
              console_error [LStr (js "[FATAL ERROR] in /upload-pdf:"); LExn err];;
              res_send 500 (js "Failed to process PDF.")))
        (cleanup filePath)
  end.

(** The [try] block of [/upload-image] up to the end of extraction. *)
Definition extract_image (req : Request) (filePath : path) : M Ext jsstring :=
  let shouldAnalyze := shouldAnalyze req in
  console_log [LStr (js "Processing image. Analysis requested: " ++ of_bool shouldAnalyze)];;
  console_log [LStr (js "[Image OCR]: Starting text extraction with Tesseract...")];;
  text <- extern (Recognize (FromPath filePath) (js "eng"));
  let extractedText := text in
  console_log [LStr (js "[Image OCR]: Text extraction complete.")];;
  ret extractedText.

Definition upload_image (req : Request) : M Ext unit :=
  console_log [LStr (newline ++ js "--- Received request for /upload-image ---")];;
  match file req with
  | None => res_send 400 (js "No file uploaded.")
  | Some f =>
      let filePath := file_path f in
      try_finally
        (try_catch
           (extractedText <- extract_image req filePath;
            analyze_and_reply (shouldAnalyze req) extractedText)
           (fun err =>
              console_error [LStr (js "[FATAL ERROR] in /upload-image:"); LExn err];;
              res_send 500 (js "Failed to extract image text.")))
        (cleanup filePath)
  end.

(** The two routes, [/upload-pdf] and [/upload-image]. *)
Inductive Endpoint : Type := UploadPdf | UploadImage.

Definition handler (ep : Endpoint) : Request -> M Ext unit :=
  match ep with
  | UploadPdf => upload_pdf
  | UploadImage => upload_image
  end.

Definition extraction (ep : Endpoint) : Request -> path -> M Ext jsstring :=
  match ep with
  | UploadPdf => extract_pdf
  | UploadImage => extract_image
  end.

(** The body of the 500 reply of each handler. *)
Definition failure_text (ep : Endpoint) : jsstring :=
  match ep with
  | UploadPdf => js "Failed to process PDF."
  | UploadImage => js "Failed to extract image text."
  end.

Definition received_line (ep : Endpoint) : jsstring :=
  match ep with
  | UploadPdf => newline ++ js "--- Received request for /upload-pdf ---"
  | UploadImage => newline ++ js "--- Received request for /upload-image ---"
  end.

(** [app.post(route, upload.single('file'), handler)] on an upload multer
    lets through. *)
Definition app_post (ep : Endpoint) (u : Upload) : M Ext unit :=
  req <- upload_single u; handler ep req.

(** *** The requests multer refuses

    None of this is code of the repository: it is what multer and Express
    do around the two handlers. *)

(** [new MulterError('LIMIT_UNEXPECTED_FILE', field)], as far as [exn]
    keeps it: its message. *)
Definition MulterError_unexpected_file : exn := Error (js "Unexpected field").

(** [fs.unlink(p, cb)], with which multer removes what it stored: a failure
    goes to the callback, nothing is thrown. *)
Definition unlink (p : path) : M Ext unit :=
  try_catch (unlinkSync p) (fun _ => ret tt).

(** [upload.single('file')] on any request.  multer takes the file parts in
    the order they come.  A part without a file name is skipped.  The first
    part with one must be under the field [file], and is stored as above.
    Any other part with a file name, under another field or after the file,
    makes multer give up: it removes what it stored and passes a
    [MulterError] on. *)
Fixpoint single_parts (ps : list FileField) (req : Request) : M Ext Request :=
  match ps with
  | [] => ret req
  | f :: rest =>
      if named f then
        match file req with
        | None =>
            if JsString.eqb (fieldname f) (js "file") then
              req' <- upload_single
                        {| file_part := Some {| originalname := filename f;
                                                content := stream f |};
                           fields := body req |};
              single_parts rest req'
            else throw MulterError_unexpected_file
        | Some stored =>
            unlink (file_path stored);;
            throw MulterError_unexpected_file
        end
      else single_parts rest req
  end.

Definition single (r : Incoming) : M Ext Request :=
  single_parts (file_parts r) {| file := None; body := text_fields r |}.

(** The HTML page with which Express answers an error no handler took; its
    text depends on the environment the server runs in. *)
Context (error_page : exn -> jsstring).


End Server.

(** ** Reading a trace *)

Definition is_send (e : Event) : bool :=
  match e with ESend _ _ => true | _ => false end.

Definition is_unlink (e : Event) : bool :=
  match e with EFs (UnlinkSync _) => true | _ => false end.

Definition is_write (e : Event) : bool :=
  match e with EFs (WriteFile _ _) => true | _ => false end.

(** The first statement of [getSocialMediaAnalysis]: its console line marks
    one invocation of the analysis client. *)
Definition is_analysis_request (e : Event) : bool :=
  match e with
  | ELog [LStr s] => JsString.eqb s analysis_request_line
  | _ => false
  end.

(** A request sent to the generative-language endpoint. *)
Definition is_network_call (e : Event) : bool :=
  match e with ECall (AxiosPost _ _ _) _ => true | _ => false end.

Definition is_extern (e : Event) : bool :=
  match e with ECall _ _ => true | _ => false end.

(** Replies, changes to the staging directory and analysis requests; the
    other events are console lines, reads, and calls to libraries. *)
Definition observable (e : Event) : bool :=
  is_send e || is_unlink e || is_write e || is_analysis_request e.

Definition observe (t : list Event) : list Event := List.filter observable t.

Definition responses (t : list Event) : list (nat * Body) :=
  flat_map (fun e => match e with ESend s b => [(s, b)] | _ => [] end) t.

Definition analysis_attempted (t : list Event) : bool :=
  existsb is_analysis_request t.

(** The writes to and removals from the staging directory, in order. *)
Definition staging (t : list Event) : list Event :=
  List.filter (fun e => is_write e || is_unlink e) t.

(** A computation that sends no reply, leaves the staging directory and the
    environment as they are, and does not call the analysis client. *)
Definition silent {Ext A : Type} (m : M Ext A) : Prop :=
  forall w : World Ext,
    observe (emitted (m w)) = [] /\
    files (final (m w)) = files w /\
    GEMINI_API_KEY (final (m w)) = GEMINI_API_KEY w.

(** What a handler is seen to do once extraction has ended as [ex]: with a
    text, it calls the analysis client if it wants to, and replies with the
    text unless that call throws; any throw gives the 500 reply. *)
Definition expected_reply {Ext : Type} (lib : Library Ext) (flag : bool)
    (failure : jsstring) (ex : Outcome Ext jsstring) : list Event :=
  match value ex with
  | Ok text =>
      if wants_analysis flag text then
        ELog [LStr analysis_request_line] ::
        match value (getSocialMediaAnalysis lib text (final ex)) with
        | Ok a => [ESend 200 (BJson text a)]
        | Throw _ => [ESend 500 (BText failure)]
        end
      else [ESend 200 (BJson text VNull)]
  | Throw _ => [ESend 500 (BText failure)]
  end.

(** What the [finally] block is seen to do. *)
Definition unlink_if_staged {Ext : Type} (w : World Ext) (p : path) : list Event :=
  match files w !! p with Some _ => [EFs (UnlinkSync p)] | None => [] end.

(** What one completed turn of the page loop got from the libraries. *)
Record PageRun : Type :=
  { run_page : PDFPage;
    run_viewport : Viewport;
    run_canvas : Canvas;
    run_context : Context2d;
    run_image : bytes;
    run_text : jsstring }.

(** The events of a completed turn for page [i], oldest first. *)
Definition page_events (doc : PDFDocument) (i : nat) (r : PageRun) : list Event :=
  [ ELog [LStr (js "[Scanned PDF]: Processing page " ++ of_N (N.of_nat i) ++ js "...")];
    ECall (GetPage doc i) (Ok (run_page r));
    ECall (GetViewport (run_page r) 2) (Ok (run_viewport r));
    ECall (CreateCanvas (width (run_viewport r)) (height (run_viewport r)))
          (Ok (run_canvas r));
    ECall (GetContext (run_canvas r) (js "2d")) (Ok (run_context r));
    ECall (Render (run_page r) (Some (run_context r)) (run_viewport r)) (Ok tt);
    ECall (ToBuffer (run_canvas r) (js "image/png")) (Ok (run_image r));
    ECall (Recognize (FromBuffer (run_image r)) (js "eng")) (Ok (run_text r));
    ECall (PageCleanup (run_page r)) (Ok tt);
    ECall (SetWidth (run_canvas r) 0) (Ok tt);
    ECall (SetHeight (run_canvas r) 0) (Ok tt) ].

(** The events of completed turns for pages [i], [i+1], ... in this order. *)
Fixpoint pages_events (doc : PDFDocument) (i : nat) (runs : list PageRun)
  : list Event :=
  match runs with
  | [] => []
  | r :: runs' => page_events doc i r ++ pages_events doc (S i) runs'
  end.

(** Every recognized text followed by one newline, in page order. *)
Definition pages_text (runs : list PageRun) : jsstring :=
  concat (map (fun r => run_text r ++ newline) runs).

(** ** Direct text extraction, as the specification describes it *)

(** Modelled from the spec: the text layout of a well-formed PDF, which
    pdf-parse (a dependency, absent from the repository) reads: the pages in
    document order, each the sequence of its embedded text objects. *)
Definition PdfPages : Type := list (list jsstring).

(** Modelled from the spec: "the concatenation of each page's embedded text
    objects in page order". *)
Definition direct_text (pages : PdfPages) : jsstring :=
  concat (map (fun page => concat page) pages).

(** Modelled from the spec: direct mode yields that text on a well-formed
    byte stream and fails on any other; [well_formed] says which byte
    streams are PDFs and what they hold. *)
Definition pdfParse_contract {Ext : Type} (lib : Library Ext)
    (well_formed : bytes -> option PdfPages) : Prop :=
  forall (b : bytes) (e : Ext),
    match well_formed b with
    | Some pages => fst (lib _ (PdfParse b) e) = Ok (direct_text pages)
    | None => exists err, fst (lib _ (PdfParse b) e) = Throw err
    end.

(** ** A concrete outside world, to run the handlers on *)

Module Demo.

(** The external state counts the calls made so far. *)
Definition library (npages : nat) (pdf : bytes -> result jsstring)
    (ocr : result jsstring) (ai : result jsval) : Library nat :=
  fun A c n =>
    match c in Extern A return result A * nat with
    | PdfParse b => (pdf b, S n)
    | GetDocument _ => (Ok {| numPages := npages; doc_ref := 1 |}, S n)
    | GetPage _ i => (Ok {| page_ref := N.of_nat i |}, S n)
    | GetViewport _ _ => (Ok {| width := 1224; height := 1584; viewport_ref := 1 |}, S n)
    | CreateCanvas _ _ => (Ok {| canvas_ref := N.of_nat n |}, S n)
    | GetContext _ _ => (Ok {| context_ref := N.of_nat n |}, S n)
    | SetWidth _ _ => (Ok tt, S n)
    | SetHeight _ _ => (Ok tt, S n)
    | Render _ _ _ => (Ok tt, S n)
    | ToBuffer _ _ => (Ok [Byte.x89; Byte.x50], S n)
    | Recognize _ _ => (ocr, S n)
    | PageCleanup _ => (Ok tt, S n)
    | AxiosPost _ _ _ => (ai, S n)
    end.

(** A byte stream counts as a PDF when it starts with a percent sign. *)
Definition well_formed (b : bytes) : option PdfPages :=
  match b with
  | Byte.x25 :: _ => Some [[js "Hello"; js " "]; [js "World"]]
  | _ => None
  end.

Definition pdf (b : bytes) : result jsstring :=
  match well_formed b with
  | Some pages => Ok (direct_text pages)
  | None => Throw (Error (js "Invalid PDF structure"))
  end.

Definition candidates (text : jsstring) : jsval :=
  VObject [(js "candidates",
    VArray [VObject [(js "content",
      VObject [(js "parts", VArray [VObject [(js "text", VString text)]])])]])].

Definition staged : path := js "/srv/uploads/1700000000000_post.pdf".

Definition world (key : option jsstring) (b : bytes) : World nat :=
  {| files := {[ staged := b ]}; GEMINI_API_KEY := key;
     clock := 1700000000000; ext := 0%nat |}.

Definition empty_world : World nat :=
  {| files := ∅; GEMINI_API_KEY := None; clock := 1700000000000; ext := 0%nat |}.

Definition request (scanned analyze : string) : Request :=
  {| file := Some {| file_path := staged |};
     body := {[ js "scanned" := VString (js scanned);
                js "analyze" := VString (js analyze) ]} |}.

Definition upload (scanned analyze : string) : Upload :=
  {| file_part := Some {| originalname := js "post.pdf"; content := [Byte.x25] |};
     fields := {[ js "scanned" := VString (js scanned);
                  js "analyze" := VString (js analyze) ]} |}.




End Demo.

(** ** The allow-list of origins (CORS) *)

Definition whitelist : list jsstring :=
  [ js "https://social-media-analyzer-frontend-wva8.onrender.com";
    js "http://localhost:3000";
    js "http://localhost:5173" ].

(** [array.indexOf(x)] on an array of strings: the position of the first
    element strictly equal to [x], or -1. *)
Fixpoint indexOf_from (l : list jsstring) (x : jsval) (i : Z) : Z :=
  match l with
  | [] => (-1)%Z
  | y :: r =>
      if JsVal.strict_eq_string x y then i else indexOf_from r x (i + 1)%Z
  end.

Definition indexOf (l : list jsstring) (x : jsval) : Z := indexOf_from l x 0%Z.

(** [corsOptions.origin(origin, callback)]: [callback(null, true)] is
    [Ok true], [callback(new Error(...))] is the thrown error.  The origin
    is the request's header, a string or undefined. *)
Definition corsOptions_origin (origin : jsval) : result bool :=
  if negb (Z.eqb (indexOf whitelist origin) (-1)) || negb (JsVal.truthy origin)
  then Ok true
  else Throw (Error (js "Not allowed by CORS")).

(** ** More ways to read a trace *)

(** The path a file-system call names. *)
Definition fs_path (op : FsOp) : path :=
  match op with
  | WriteFile p _ | ReadFileSync p | ExistsSync p | UnlinkSync p => p
  end.

(** A computation all of whose events satisfy [P]. *)
Definition emits_only {Ext A : Type} (P : Event -> Prop) (m : M Ext A) : Prop :=
  forall w : World Ext, Forall P (emitted (m w)).

(** An event that is no file-system call, or one on [p]. *)
Definition touches_only (p : path) (e : Event) : Prop :=
  match e with
  | EFs op => fs_path op = p
  | _ => True
  end.

(** An event that is no library call, or a call that [ok] accepts. *)
Definition calls_only (ok : forall A : Type, Extern A -> Prop) (e : Event) : Prop :=
  match e with
  | ECall c _ => ok _ c
  | _ => True
  end.

(** The calls of the image route: the OCR on the staged path in English,
    and the post to the endpoint. *)
Definition image_call (p : path) (A : Type) (c : Extern A) : Prop :=
  match c with
  | Recognize (FromPath q) lang => q = p /\ lang = js "eng"
  | AxiosPost _ _ _ => True
  | _ => False
  end.

(** The calls of direct mode: pdf-parse and the post to the endpoint. *)
Definition direct_call (A : Type) (c : Extern A) : Prop :=
  match c with
  | PdfParse _ | AxiosPost _ _ _ => True
  | _ => False
  end.

(** The calls that are not a post to the endpoint. *)
Definition offline_call (A : Type) (c : Extern A) : Prop :=
  match c with
  | AxiosPost _ _ _ => False
  | _ => True
  end.

(** The calls that do not fetch a page. *)
Definition not_get_page (A : Type) (c : Extern A) : Prop :=
  match c with
  | GetPage _ _ => False
  | _ => True
  end.

(** The page numbers asked of pdf.js, in order. *)
Definition page_requests (t : list Event) : list nat :=
  flat_map (fun e => match e with ECall (GetPage _ i) _ => [i] | _ => [] end) t.

(** An OCR call that threw. *)
Definition is_failed_ocr (e : Event) : bool :=
  match e with
  | ECall (Recognize _ _) (Throw _) => true
  | _ => false
  end.

(** A canvas that node-canvas handed out, and a canvas given back (its
    width set, which [destroy] does first). *)
Definition is_canvas_created (e : Event) : bool :=
  match e with
  | ECall (CreateCanvas _ _) (Ok _) => true
  | _ => false
  end.

Definition is_canvas_released (e : Event) : bool :=
  match e with
  | ECall (SetWidth _ _) _ => true
  | _ => false
  end.

(** A page given back to pdf.js. *)
Definition is_page_cleanup (e : Event) : bool :=
  match e with
  | ECall (PageCleanup _) _ => true
  | _ => false
  end.

Definition count (q : Event -> bool) (t : list Event) : nat :=
  length (List.filter q t).

(** The calls that are not an OCR. *)
Definition not_recognize (A : Type) (c : Extern A) : Prop :=
  match c with
  | Recognize _ _ => False
  | _ => True
  end.

(** ** The upload form (Frontend/ScialMedia/src/upload.jsx)

    The component keeps fifteen state variables.  Its handlers are read as
    functions on that state: the setters called in one handler or callback
    are applied in order. *)

Module Frontend.

(** A [File] of the browser: its name and its content. *)
Record BrowserFile : Type := { name : jsstring; bits : bytes }.

Record State : Type :=
  { pdfFile : option BrowserFile;
    imageFile : option BrowserFile;
    pdfScanned : bool;
    pdfText : jsval;
    isPdfLoading : bool;
    pdfError : jsval;
    analyzePdf : bool;
    pdfAnalysis : jsval;
    isPdfAnalyzing : bool;
    imageText : jsval;
    isImageLoading : bool;
    imageError : jsval;
    analyzeImage : bool;
    imageAnalysis : jsval;
    isImageAnalyzing : bool }.

(** [useState]'s initial values. *)
Definition initial : State :=
  {| pdfFile := None; imageFile := None; pdfScanned := false;
     pdfText := VString []; isPdfLoading := false; pdfError := VString [];
     analyzePdf := false; pdfAnalysis := VString []; isPdfAnalyzing := false;
     imageText := VString []; isImageLoading := false; imageError := VString [];
     analyzeImage := false; imageAnalysis := VString []; isImageAnalyzing := false |}.

Definition setPdfText (v : jsval) (st : State) : State :=
  {| pdfFile := pdfFile st;
     imageFile := imageFile st;
     pdfScanned := pdfScanned st;
     pdfText := v;
     isPdfLoading := isPdfLoading st;
     pdfError := pdfError st;
     analyzePdf := analyzePdf st;
     pdfAnalysis := pdfAnalysis st;
     isPdfAnalyzing := isPdfAnalyzing st;
     imageText := imageText st;
     isImageLoading := isImageLoading st;
     imageError := imageError st;
     analyzeImage := analyzeImage st;
     imageAnalysis := imageAnalysis st;
     isImageAnalyzing := isImageAnalyzing st |}.

Definition setIsPdfLoading (v : bool) (st : State) : State :=
  {| pdfFile := pdfFile st;
     imageFile := imageFile st;
     pdfScanned := pdfScanned st;
     pdfText := pdfText st;
     isPdfLoading := v;
     pdfError := pdfError st;
     analyzePdf := analyzePdf st;
     pdfAnalysis := pdfAnalysis st;
     isPdfAnalyzing := isPdfAnalyzing st;
     imageText := imageText st;
     isImageLoading := isImageLoading st;
     imageError := imageError st;
     analyzeImage := analyzeImage st;
     imageAnalysis := imageAnalysis st;
     isImageAnalyzing := isImageAnalyzing st |}.

Definition setPdfError (v : jsval) (st : State) : State :=
  {| pdfFile := pdfFile st;
     imageFile := imageFile st;
     pdfScanned := pdfScanned st;
     pdfText := pdfText st;
     isPdfLoading := isPdfLoading st;
     pdfError := v;
     analyzePdf := analyzePdf st;
     pdfAnalysis := pdfAnalysis st;
     isPdfAnalyzing := isPdfAnalyzing st;
     imageText := imageText st;
     isImageLoading := isImageLoading st;
     imageError := imageError st;
     analyzeImage := analyzeImage st;
     imageAnalysis := imageAnalysis st;
     isImageAnalyzing := isImageAnalyzing st |}.

Definition setPdfAnalysis (v : jsval) (st : State) : State :=
  {| pdfFile := pdfFile st;
     imageFile := imageFile st;
     pdfScanned := pdfScanned st;
     pdfText := pdfText st;
     isPdfLoading := isPdfLoading st;
     pdfError := pdfError st;
     analyzePdf := analyzePdf st;
     pdfAnalysis := v;
     isPdfAnalyzing := isPdfAnalyzing st;
     imageText := imageText st;
     isImageLoading := isImageLoading st;
     imageError := imageError st;
     analyzeImage := analyzeImage st;
     imageAnalysis := imageAnalysis st;
     isImageAnalyzing := isImageAnalyzing st |}.

Definition setIsPdfAnalyzing (v : bool) (st : State) : State :=
  {| pdfFile := pdfFile st;
     imageFile := imageFile st;
     pdfScanned := pdfScanned st;
     pdfText := pdfText st;
     isPdfLoading := isPdfLoading st;
     pdfError := pdfError st;
     analyzePdf := analyzePdf st;
     pdfAnalysis := pdfAnalysis st;
     isPdfAnalyzing := v;
     imageText := imageText st;
     isImageLoading := isImageLoading st;
     imageError := imageError st;
     analyzeImage := analyzeImage st;
     imageAnalysis := imageAnalysis st;
     isImageAnalyzing := isImageAnalyzing st |}.

Definition setImageText (v : jsval) (st : State) : State :=
  {| pdfFile := pdfFile st;
     imageFile := imageFile st;
     pdfScanned := pdfScanned st;
     pdfText := pdfText st;
     isPdfLoading := isPdfLoading st;
     pdfError := pdfError st;
     analyzePdf := analyzePdf st;
     pdfAnalysis := pdfAnalysis st;
     isPdfAnalyzing := isPdfAnalyzing st;
     imageText := v;
     isImageLoading := isImageLoading st;
     imageError := imageError st;
     analyzeImage := analyzeImage st;
     imageAnalysis := imageAnalysis st;
     isImageAnalyzing := isImageAnalyzing st |}.

Definition setIsImageLoading (v : bool) (st : State) : State :=
  {| pdfFile := pdfFile st;
     imageFile := imageFile st;
     pdfScanned := pdfScanned st;
     pdfText := pdfText st;
     isPdfLoading := isPdfLoading st;
     pdfError := pdfError st;
     analyzePdf := analyzePdf st;
     pdfAnalysis := pdfAnalysis st;
     isPdfAnalyzing := isPdfAnalyzing st;
     imageText := imageText st;
     isImageLoading := v;
     imageError := imageError st;
     analyzeImage := analyzeImage st;
     imageAnalysis := imageAnalysis st;
     isImageAnalyzing := isImageAnalyzing st |}.

Definition setImageError (v : jsval) (st : State) : State :=
  {| pdfFile := pdfFile st;
     imageFile := imageFile st;
     pdfScanned := pdfScanned st;
     pdfText := pdfText st;
     isPdfLoading := isPdfLoading st;
     pdfError := pdfError st;
     analyzePdf := analyzePdf st;
     pdfAnalysis := pdfAnalysis st;
     isPdfAnalyzing := isPdfAnalyzing st;
     imageText := imageText st;
     isImageLoading := isImageLoading st;
     imageError := v;
     analyzeImage := analyzeImage st;
     imageAnalysis := imageAnalysis st;
     isImageAnalyzing := isImageAnalyzing st |}.

Definition setImageAnalysis (v : jsval) (st : State) : State :=
  {| pdfFile := pdfFile st;
     imageFile := imageFile st;
     pdfScanned := pdfScanned st;
     pdfText := pdfText st;
     isPdfLoading := isPdfLoading st;
     pdfError := pdfError st;
     analyzePdf := analyzePdf st;
     pdfAnalysis := pdfAnalysis st;
     isPdfAnalyzing := isPdfAnalyzing st;
     imageText := imageText st;
     isImageLoading := isImageLoading st;
     imageError := imageError st;
     analyzeImage := analyzeImage st;
     imageAnalysis := v;
     isImageAnalyzing := isImageAnalyzing st |}.

Definition setIsImageAnalyzing (v : bool) (st : State) : State :=
  {| pdfFile := pdfFile st;
     imageFile := imageFile st;
     pdfScanned := pdfScanned st;
     pdfText := pdfText st;
     isPdfLoading := isPdfLoading st;
     pdfError := pdfError st;
     analyzePdf := analyzePdf st;
     pdfAnalysis := pdfAnalysis st;
     isPdfAnalyzing := isPdfAnalyzing st;
     imageText := imageText st;
     isImageLoading := isImageLoading st;
     imageError := imageError st;
     analyzeImage := analyzeImage st;
     imageAnalysis := imageAnalysis st;
     isImageAnalyzing := v |}.

Definition setPdfFile (v : option BrowserFile) (st : State) : State :=
  {| pdfFile := v;
     imageFile := imageFile st;
     pdfScanned := pdfScanned st;
     pdfText := pdfText st;
     isPdfLoading := isPdfLoading st;
     pdfError := pdfError st;
     analyzePdf := analyzePdf st;
     pdfAnalysis := pdfAnalysis st;
     isPdfAnalyzing := isPdfAnalyzing st;
     imageText := imageText st;
     isImageLoading := isImageLoading st;
     imageError := imageError st;
     analyzeImage := analyzeImage st;
     imageAnalysis := imageAnalysis st;
     isImageAnalyzing := isImageAnalyzing st |}.

Definition setImageFile (v : option BrowserFile) (st : State) : State :=
  {| pdfFile := pdfFile st;
     imageFile := v;
     pdfScanned := pdfScanned st;
     pdfText := pdfText st;
     isPdfLoading := isPdfLoading st;
     pdfError := pdfError st;
     analyzePdf := analyzePdf st;
     pdfAnalysis := pdfAnalysis st;
     isPdfAnalyzing := isPdfAnalyzing st;
     imageText := imageText st;
     isImageLoading := isImageLoading st;
     imageError := imageError st;
     analyzeImage := analyzeImage st;
     imageAnalysis := imageAnalysis st;
     isImageAnalyzing := isImageAnalyzing st |}.

Definition setPdfScanned (v : bool) (st : State) : State :=
  {| pdfFile := pdfFile st;
     imageFile := imageFile st;
     pdfScanned := v;
     pdfText := pdfText st;
     isPdfLoading := isPdfLoading st;
     pdfError := pdfError st;
     analyzePdf := analyzePdf st;
     pdfAnalysis := pdfAnalysis st;
     isPdfAnalyzing := isPdfAnalyzing st;
     imageText := imageText st;
     isImageLoading := isImageLoading st;
     imageError := imageError st;
     analyzeImage := analyzeImage st;
     imageAnalysis := imageAnalysis st;
     isImageAnalyzing := isImageAnalyzing st |}.

Definition setAnalyzePdf (v : bool) (st : State) : State :=
  {| pdfFile := pdfFile st;
     imageFile := imageFile st;
     pdfScanned := pdfScanned st;
     pdfText := pdfText st;
     isPdfLoading := isPdfLoading st;
     pdfError := pdfError st;
     analyzePdf := v;
     pdfAnalysis := pdfAnalysis st;
     isPdfAnalyzing := isPdfAnalyzing st;
     imageText := imageText st;
     isImageLoading := isImageLoading st;
     imageError := imageError st;
     analyzeImage := analyzeImage st;
     imageAnalysis := imageAnalysis st;
     isImageAnalyzing := isImageAnalyzing st |}.

Definition setAnalyzeImage (v : bool) (st : State) : State :=
  {| pdfFile := pdfFile st;
     imageFile := imageFile st;
     pdfScanned := pdfScanned st;
     pdfText := pdfText st;
     isPdfLoading := isPdfLoading st;
     pdfError := pdfError st;
     analyzePdf := analyzePdf st;
     pdfAnalysis := pdfAnalysis st;
     isPdfAnalyzing := isPdfAnalyzing st;
     imageText := imageText st;
     isImageLoading := isImageLoading st;
     imageError := imageError st;
     analyzeImage := v;
     imageAnalysis := imageAnalysis st;
     isImageAnalyzing := isImageAnalyzing st |}.

Definition API_URL : jsstring := js "https://social-media-analyzer-wrvf.onrender.com".

(** A [FormData]: its entries in the order they were appended.  A value
    that is not a file is stored as its string. *)
Inductive FormValue : Type :=
| FString (s : jsstring)
| FFile (f : BrowserFile).

Definition FormData : Type := list (jsstring * FormValue).

Definition append (fd : FormData) (name : string) (v : FormValue) : FormData :=
  fd ++ [(js name, v)].

Record Post : Type := { post_url : jsstring; post_data : FormData }.

(** [a || b] *)
Definition or_else (a b : jsval) : jsval := if JsVal.truthy a then a else b.

(** [uploadPdf], up to the call of [axios.post]: the new state and the
    request, if one is sent.  [st0] is the state the component was rendered
    with. *)
Definition uploadPdf (st0 : State) : State * option Post :=
  match pdfFile st0 with
  | None => (setPdfError (VString (js "Please select or drop a PDF file first.")) st0, None)
  | Some chosen =>
    let st := setIsPdfLoading true st0 in
    let st := if analyzePdf st0 then setIsPdfAnalyzing true st else st in
    let st := setPdfText (VString []) st in
    let st := setPdfError (VString []) st in
    let st := setPdfAnalysis (VString []) st in
    let formData := append [] "file" (FFile chosen) in
    let formData := append formData "scanned" (FString (of_bool (pdfScanned st0))) in
    let formData := append formData "analyze" (FString (of_bool (analyzePdf st0))) in
    (st, Some {| post_url := API_URL ++ js "/upload-pdf"; post_data := formData |})
  end.

(** The [then] callback of [uploadPdf] on [res.data]. *)
Definition pdf_then (data : jsval) (st : State) : result State :=
  if JsVal.nullish data then Throw (TypeError "read" (typeof_nullish data) "text")
  else
    let st := setPdfText (or_else (JsVal.member data (js "text"))
                                 (VString (js "No text could be extracted."))) st in
    Ok (if JsVal.truthy (JsVal.member data (js "analysis"))
        then setPdfAnalysis (JsVal.member data (js "analysis")) st
        else st).

(** The [catch] callback: the state, and the line written to the console. *)
Definition pdf_catch (err : exn) (st : State) : State * list Event :=
  let message :=
    or_else (match response err with Some d => d | None => VUndefined end)
            (VString (js "PDF processing failed. The server might be busy or down.")) in
  (setPdfError message st, [EError [LExn err]]).

(** The [finally] callback. *)
Definition pdf_finally (st : State) : State :=
  setIsPdfAnalyzing false (setIsPdfLoading false st).

(** [.then(...).catch(...).finally(...)] on a promise that settled as
    [outcome], run on the state of that moment. *)
Definition pdf_settle (outcome : result jsval) (st : State) : State * list Event :=
  let after_then :=
    match outcome with
    | Ok data => pdf_then data st
    | Throw err => Throw err
    end in
  let after_catch :=
    match after_then with
    | Ok st' => (st', [])
    | Throw err => pdf_catch err st
    end in
  (pdf_finally (fst after_catch), snd after_catch).

(** [uploadImage], up to the call of [axios.post]: the new state and the
    request, if one is sent.  [st0] is the state the component was rendered
    with. *)
Definition uploadImage (st0 : State) : State * option Post :=
  match imageFile st0 with
  | None => (setImageError (VString (js "Please select or drop an image file first.")) st0, None)
  | Some chosen =>
    let st := setIsImageLoading true st0 in
    let st := if analyzeImage st0 then setIsImageAnalyzing true st else st in
    let st := setImageText (VString []) st in
    let st := setImageError (VString []) st in
    let st := setImageAnalysis (VString []) st in
    let formData := append [] "file" (FFile chosen) in
    let formData := append formData "analyze" (FString (of_bool (analyzeImage st0))) in
    (st, Some {| post_url := API_URL ++ js "/upload-image"; post_data := formData |})
  end.

(** The [then] callback of [uploadImage] on [res.data]. *)
Definition image_then (data : jsval) (st : State) : result State :=
  if JsVal.nullish data then Throw (TypeError "read" (typeof_nullish data) "text")
  else
    let st := setImageText (or_else (JsVal.member data (js "text"))
                                 (VString (js "No text could be extracted."))) st in
    Ok (if JsVal.truthy (JsVal.member data (js "analysis"))
        then setImageAnalysis (JsVal.member data (js "analysis")) st
        else st).

(** The [catch] callback: the state, and the line written to the console. *)
Definition image_catch (err : exn) (st : State) : State * list Event :=
  let message :=
    or_else (match response err with Some d => d | None => VUndefined end)
            (VString (js "Image processing failed. The server might be busy or down.")) in
  (setImageError message st, [EError [LExn err]]).

(** The [finally] callback. *)
Definition image_finally (st : State) : State :=
  setIsImageAnalyzing false (setIsImageLoading false st).

(** [.then(...).catch(...).finally(...)] on a promise that settled as
    [outcome], run on the state of that moment. *)
Definition image_settle (outcome : result jsval) (st : State) : State * list Event :=
  let after_then :=
    match outcome with
    | Ok data => image_then data st
    | Throw err => Throw err
    end in
  let after_catch :=
    match after_then with
    | Ok st' => (st', [])
    | Throw err => image_catch err st
    end in
  (image_finally (fst after_catch), snd after_catch).

(** The check boxes: [onChange={() => setPdfScanned(!pdfScanned)}] and the
    two for the analysis. *)
Definition togglePdfScanned (st : State) : State := setPdfScanned (negb (pdfScanned st)) st.
Definition toggleAnalyzePdf (st : State) : State := setAnalyzePdf (negb (analyzePdf st)) st.
Definition toggleAnalyzeImage (st : State) : State :=
  setAnalyzeImage (negb (analyzeImage st)) st.

(** The drop zones: [onDrop: (files) => setPdfFile(files[0])]. *)
Definition dropPdf (files : list BrowserFile) (st : State) : State :=
  setPdfFile (head files) st.
Definition dropImage (files : list BrowserFile) (st : State) : State :=
  setImageFile (head files) st.

(** The buttons are disabled while a request is under way. *)
Definition pdfButtonDisabled (st : State) : bool := isPdfLoading st || isPdfAnalyzing st.
Definition imageButtonDisabled (st : State) : bool :=
  isImageLoading st || isImageAnalyzing st.

End Frontend.

(** ** Between the form and the server

    What the browser, axios and multer do between [axios.post] in the form
    and the route, and back.  None of it is code of the repository. *)

(** The multipart body the browser makes of a [FormData]: a file part for
    each file, under the name it was appended with, and each other entry as a
    text field.  The file name travels in a header; [reported] is the name
    busboy reports for a file the browser calls [name], which is not the same
    string in general.  The forms above give every field once, under an ASCII
    name. *)
Fixpoint wire_files (reported : jsstring -> jsstring) (fd : Frontend.FormData)
  : list FileField :=
  match fd with
  | [] => []
  | (n, Frontend.FFile f) :: r =>
      {| fieldname := n; filename := reported (Frontend.name f);
         stream := Frontend.bits f |} :: wire_files reported r
  | _ :: r => wire_files reported r
  end.

Fixpoint wire_fields (fd : Frontend.FormData) : gmap jsstring jsval :=
  match fd with
  | [] => ∅
  | (n, Frontend.FString s) :: r => <[n := VString s]> (wire_fields r)
  | _ :: r => wire_fields r
  end.

Definition wire (reported : jsstring -> jsstring) (fd : Frontend.FormData) : Incoming :=
  {| file_parts := wire_files reported fd; text_fields := wire_fields fd |}.




(** The form seen from one of its two blocks. *)
Definition start (ep : Endpoint) : Frontend.State -> Frontend.State * option Frontend.Post :=
  match ep with
  | UploadPdf => Frontend.uploadPdf
  | UploadImage => Frontend.uploadImage
  end.

Definition settle (ep : Endpoint)
  : result jsval -> Frontend.State -> Frontend.State * list Event :=
  match ep with
  | UploadPdf => Frontend.pdf_settle
  | UploadImage => Frontend.image_settle
  end.

Definition chosen_file (ep : Endpoint) (st : Frontend.State) : option Frontend.BrowserFile :=
  match ep with
  | UploadPdf => Frontend.pdfFile st
  | UploadImage => Frontend.imageFile st
  end.

Definition shown_text (ep : Endpoint) (st : Frontend.State) : jsval :=
  match ep with
  | UploadPdf => Frontend.pdfText st
  | UploadImage => Frontend.imageText st
  end.

Definition shown_error (ep : Endpoint) (st : Frontend.State) : jsval :=
  match ep with
  | UploadPdf => Frontend.pdfError st
  | UploadImage => Frontend.imageError st
  end.

Definition shown_analysis (ep : Endpoint) (st : Frontend.State) : jsval :=
  match ep with
  | UploadPdf => Frontend.pdfAnalysis st
  | UploadImage => Frontend.imageAnalysis st
  end.

Definition analysis_wanted (ep : Endpoint) (st : Frontend.State) : bool :=
  match ep with
  | UploadPdf => Frontend.analyzePdf st
  | UploadImage => Frontend.analyzeImage st
  end.

Definition button_disabled (ep : Endpoint) (st : Frontend.State) : bool :=
  match ep with
  | UploadPdf => Frontend.pdfButtonDisabled st
  | UploadImage => Frontend.imageButtonDisabled st
  end.


(** ** Laws of the monad *)

Section Laws.
Context {Ext : Type}.
Implicit Types w : World Ext.

Lemma value_bind {A B} (m : M Ext A) (k : A -> M Ext B) w :
  value (bind m k w) =
  match value (m w) with
  | Ok a => value (k a (final (m w)))
  | Throw e => Throw e
  end.
Proof. unfold bind. destruct (value (m w)); reflexivity. Qed.

Lemma final_bind {A B} (m : M Ext A) (k : A -> M Ext B) w :
  final (bind m k w) =
  match value (m w) with
  | Ok a => final (k a (final (m w)))
  | Throw _ => final (m w)
  end.
Proof. unfold bind. destruct (value (m w)); reflexivity. Qed.

Lemma emitted_bind {A B} (m : M Ext A) (k : A -> M Ext B) w :
  emitted (bind m k w) =
  emitted (m w) ++
  match value (m w) with
  | Ok a => emitted (k a (final (m w)))
  | Throw _ => []
  end.
Proof.
  unfold bind. destruct (value (m w)); simpl; [reflexivity|].
  now rewrite app_nil_r.
Qed.

Lemma bind_assoc {A B C} (m : M Ext A) (k : A -> M Ext B) (k' : B -> M Ext C) w :
  bind (bind m k) k' w = bind m (fun a => bind (k a) k') w.
Proof.
  unfold bind. destruct (m w) as [[a|e] w1 t1]; simpl; [|reflexivity].
  destruct (k a w1) as [[b|e] w2 t2]; simpl; [|reflexivity].
  now rewrite app_assoc.
Qed.

Lemma value_try_catch {A} (m : M Ext A) (h : exn -> M Ext A) w :
  value (try_catch m h w) =
  match value (m w) with
  | Ok a => Ok a
  | Throw e => value (h e (final (m w)))
  end.
Proof. unfold try_catch. destruct (m w) as [[a|e] w1 t1]; reflexivity. Qed.

Lemma final_try_catch {A} (m : M Ext A) (h : exn -> M Ext A) w :
  final (try_catch m h w) =
  match value (m w) with
  | Ok _ => final (m w)
  | Throw e => final (h e (final (m w)))
  end.
Proof. unfold try_catch. destruct (m w) as [[a|e] w1 t1]; reflexivity. Qed.

Lemma emitted_try_catch {A} (m : M Ext A) (h : exn -> M Ext A) w :
  emitted (try_catch m h w) =
  emitted (m w) ++
  match value (m w) with
  | Ok _ => []
  | Throw e => emitted (h e (final (m w)))
  end.
Proof.
  unfold try_catch. destruct (m w) as [[a|e] w1 t1]; simpl; [|reflexivity].
  now rewrite app_nil_r.
Qed.

Lemma observe_app (s t : list Event) : observe (s ++ t) = observe s ++ observe t.
Proof. apply List.filter_app. Qed.

Lemma responses_app (s t : list Event) :
  responses (s ++ t) = responses s ++ responses t.
Proof. apply flat_map_app. Qed.

(** Only observable events count for the observers. *)
Lemma responses_observe (t : list Event) : responses (observe t) = responses t.
Proof.
  induction t as [|e t IH]; [reflexivity|].
  unfold observe in *. simpl. destruct e; simpl; try apply IH.
  - destruct (observable _); simpl; apply IH.
  - destruct op; simpl; apply IH.
  - now rewrite IH.
Qed.

Lemma filter_observe (q : Event -> bool) (t : list Event) :
  (forall e, q e = true -> observable e = true) ->
  List.filter q (observe t) = List.filter q t.
Proof.
  intros Hq. induction t as [|e t IH]; [reflexivity|].
  unfold observe in *. simpl. destruct (q e) eqn:He.
  - rewrite (Hq e He). simpl. now rewrite He, IH.
  - destruct (observable e); simpl; rewrite ?He; apply IH.
Qed.

Lemma staging_observe (t : list Event) : staging (observe t) = staging t.
Proof.
  apply filter_observe. intros e. unfold observable.
  destruct (is_send e), (is_unlink e), (is_write e); simpl; congruence.
Qed.

Lemma unlink_observable (e : Event) : is_unlink e = true -> observable e = true.
Proof. unfold observable. intros ->. now rewrite orb_true_r. Qed.

Lemma request_observable (e : Event) :
  is_analysis_request e = true -> observable e = true.
Proof. unfold observable. intros ->. now rewrite !orb_true_r. Qed.

Lemma unlinks_observe (t : list Event) :
  List.filter is_unlink (observe t) = List.filter is_unlink t.
Proof.
  induction t as [|e t IH]; [reflexivity|].
  unfold observe in *. simpl.
  destruct (is_unlink e) eqn:Hu.
  - rewrite (unlink_observable e Hu). simpl. now rewrite Hu, IH.
  - destruct (observable e); simpl; rewrite ?Hu; apply IH.
Qed.

Lemma attempted_observe (t : list Event) :
  analysis_attempted (observe t) = analysis_attempted t.
Proof.
  induction t as [|e t IH]; [reflexivity|].
  unfold observe, analysis_attempted in *. simpl.
  destruct (is_analysis_request e) eqn:Ha.
  - rewrite (request_observable e Ha). simpl. now rewrite Ha.
  - destruct (observable e); simpl; rewrite ?Ha; apply IH.
Qed.

End Laws.

(** ** Silent computations *)

Section Silent.
Context {Ext : Type} (lib : Library Ext).
Implicit Types w : World Ext.

Lemma silent_ret {A} (a : A) : silent (ret (Ext := Ext) a).
Proof. intros w. now simpl. Qed.

Lemma silent_throw {A} (e : exn) : silent (throw (Ext := Ext) (A := A) e).
Proof. intros w. now simpl. Qed.

Lemma silent_bind {A B} (m : M Ext A) (k : A -> M Ext B) :
  silent m -> (forall a, silent (k a)) -> silent (bind m k).
Proof.
  intros Hm Hk w. destruct (Hm w) as (Ho & Hf & He).
  rewrite emitted_bind, final_bind, observe_app, Ho.
  destruct (value (m w)) as [a|e]; [|now simpl].
  destruct (Hk a (final (m w))) as (Ho' & Hf' & He').
  now rewrite Ho', Hf', He'.
Qed.

Lemma silent_try_catch {A} (m : M Ext A) (h : exn -> M Ext A) :
  silent m -> (forall e, silent (h e)) -> silent (try_catch m h).
Proof.
  intros Hm Hh w. destruct (Hm w) as (Ho & Hf & He).
  rewrite emitted_try_catch, final_try_catch, observe_app, Ho.
  destruct (value (m w)) as [a|e]; [now simpl|].
  destruct (Hh e (final (m w))) as (Ho' & Hf' & He').
  now rewrite Ho', Hf', He'.
Qed.

Lemma silent_emit (e : Event) :
  observable e = false -> silent (emit (Ext := Ext) e).
Proof. intros He w. unfold observe. simpl. now rewrite He. Qed.

Lemma silent_extern {A} (c : Extern A) : silent (extern lib c).
Proof. intros w. now simpl. Qed.

Lemma silent_readFileSync (p : path) : silent (readFileSync (Ext := Ext) p).
Proof. intros w. now simpl. Qed.

Lemma silent_nonnull {A} (o : option A) (action name : string) :
  silent (nonnull (Ext := Ext) o action name).
Proof. destruct o; [apply silent_ret | apply silent_throw]. Qed.

Lemma silent_get_member (a : jsval) (name : string) :
  silent (get_member (Ext := Ext) a name).
Proof. unfold get_member. destruct (JsVal.nullish a); [apply silent_throw | apply silent_ret]. Qed.

Lemma silent_get_first (a : jsval) : silent (get_first (Ext := Ext) a).
Proof. unfold get_first. destruct (JsVal.nullish a); [apply silent_throw | apply silent_ret]. Qed.

Lemma silent_env : silent (env_GEMINI_API_KEY (Ext := Ext)).
Proof. intros w. now simpl. Qed.

End Silent.

(** A console line is silent unless it is the analysis client's. *)
Ltac quiet_line := apply silent_emit; reflexivity.

Ltac silence :=
  repeat first
    [ apply silent_ret | apply silent_throw | apply silent_extern
    | apply silent_readFileSync | apply silent_nonnull | apply silent_env
    | apply silent_get_member | apply silent_get_first
    | progress unfold console_log, console_error; quiet_line
    | apply silent_bind; [|intros ?] | apply silent_try_catch; [|intros ?]
    | match goal with |- silent (if ?b then _ else _) => destruct b end
    | match goal with |- silent (match ?o with Some _ => _ | None => _ end) =>
        destruct o
      end ].

(** Reduce the primitives, leave the programs folded. *)
Ltac prim :=
  cbn [value final emitted ret throw emit res_json res_send console_log
       console_error bind app observe observable List.filter is_send
       is_unlink is_write is_analysis_request orb].

(** ** What the programs are seen to do *)

Section Programs.
Context {Ext : Type} (lib : Library Ext).
Implicit Types w : World Ext.

Lemma silent_create (w h : Q) : silent (NodeCanvasFactory_create lib w h).
Proof. unfold NodeCanvasFactory_create. silence. Qed.

Lemma silent_destroy (cc : CanvasAndContext) :
  silent (NodeCanvasFactory_destroy lib cc).
Proof. unfold NodeCanvasFactory_destroy. silence. Qed.

Lemma silent_ocr_page (doc : PDFDocument) (i : nat) (acc : jsstring) :
  silent (ocr_page lib doc i acc).
Proof.
  unfold ocr_page.
  repeat first [ apply silent_create | apply silent_destroy | progress silence ].
Qed.

Lemma silent_ocr_pages (doc : PDFDocument) (left i : nat) (acc : jsstring) :
  silent (ocr_pages lib doc left i acc).
Proof.
  revert i acc. induction left as [|left IH]; intros i acc; simpl.
  - apply silent_ret.
  - apply silent_bind; [apply silent_ocr_page | intros t; apply IH].
Qed.

Lemma silent_extract_pdf (req : Request) (p : path) :
  silent (extract_pdf lib req p).
Proof.
  unfold extract_pdf.
  destruct (isScanned req), (shouldAnalyze req); simpl;
    repeat first [ apply silent_ocr_pages | progress silence ].
Qed.

Lemma silent_extract_image (req : Request) (p : path) :
  silent (extract_image lib req p).
Proof. unfold extract_image. destruct (shouldAnalyze req); silence. Qed.

(** The analysis client announces itself once and is silent otherwise. *)
Lemma analysis_observed (text : jsstring) w :
  let o := getSocialMediaAnalysis lib text w in
  observe (emitted o) = [ELog [LStr analysis_request_line]] /\
  files (final o) = files w /\
  GEMINI_API_KEY (final o) = GEMINI_API_KEY w.
Proof.
  unfold getSocialMediaAnalysis.
  match goal with |- context [bind (console_log ?l) ?k] =>
    assert (silent (k tt)) as Hrest by silence;
    destruct (Hrest w) as (Ho & Hf & He)
  end.
  cbv zeta. rewrite emitted_bind, final_bind, observe_app.
  change (value (console_log [LStr analysis_request_line] w)) with (Ok (A := unit) tt).
  change (final (console_log [LStr analysis_request_line] w)) with w.
  cbv iota beta. now rewrite Ho.
Qed.

(** The [try] and [catch] blocks of a handler whose extraction is [ex]. *)
Lemma try_block_observed (ex : M Ext jsstring) (flag : bool)
    (tag failure : jsstring) w :
  silent ex ->
  let o := try_catch
             (bind ex (analyze_and_reply lib flag))
             (fun err => bind (console_error [LStr tag; LExn err])
                              (fun _ => res_send 500 failure)) w in
  observe (emitted o) = expected_reply lib flag failure (ex w) /\
  files (final o) = files w /\
  GEMINI_API_KEY (final o) = GEMINI_API_KEY w /\
  value o = Ok tt.
Proof.
  intros Hex. destruct (Hex w) as (Ho & Hf & He). cbv zeta.
  rewrite emitted_try_catch, final_try_catch, value_try_catch.
  rewrite emitted_bind, value_bind, final_bind.
  unfold expected_reply.
  destruct (value (ex w)) as [text|e].
  - unfold analyze_and_reply.
    rewrite emitted_bind, value_bind, final_bind.
    destruct (wants_analysis flag text).
    + destruct (analysis_observed text (final (ex w))) as (Ho' & Hf' & He').
      cbv zeta in Ho', Hf', He'.
      destruct (value (getSocialMediaAnalysis lib text (final (ex w)))) as [a|e];
        rewrite !observe_app, Ho, Ho'; prim; rewrite Hf', He'; now rewrite ?app_nil_r.
    + rewrite !observe_app, Ho. now prim.
  - rewrite !observe_app, Ho. now prim.
Qed.

Lemma cleanup_observed (p : path) w :
  let o := cleanup (Ext := Ext) p w in
  observe (emitted o) =
    match files w !! p with Some _ => [EFs (UnlinkSync p)] | None => [] end /\
  files (final o) = delete p (files w) /\
  GEMINI_API_KEY (final o) = GEMINI_API_KEY w /\
  ext (final o) = ext w /\
  value o = Ok tt.
Proof.
  unfold cleanup, bind, existsSync, unlinkSync. simpl.
  destruct (files w !! p) as [b|] eqn:Hp; simpl.
  - rewrite Hp. simpl. repeat split. 
  - repeat split. now rewrite delete_id.
Qed.

(** [try], [catch] and [finally] together. *)
Lemma handler_observed (ex : M Ext jsstring) (flag : bool)
    (tag failure : jsstring) (p : path) w :
  silent ex ->
  let o := try_finally
             (try_catch
                (bind ex (analyze_and_reply lib flag))
                (fun err => bind (console_error [LStr tag; LExn err])
                                 (fun _ => res_send 500 failure)))
             (cleanup p) w in
  observe (emitted o) =
    expected_reply lib flag failure (ex w) ++ unlink_if_staged w p /\
  files (final o) = delete p (files w) /\
  GEMINI_API_KEY (final o) = GEMINI_API_KEY w /\
  value o = Ok tt.
Proof.
  intros Hex.
  destruct (try_block_observed ex flag tag failure w Hex) as (Ho & Hf & He & Hv).
  cbv zeta in Ho, Hf, He, Hv. cbv zeta. unfold try_finally.
  match goal with |- context [cleanup p ?w1] =>
    destruct (cleanup_observed p w1) as (Ho' & Hf' & He' & _ & Hv')
  end.
  cbv zeta in Ho', Hf', He', Hv'.
  cbn [value final emitted]. rewrite observe_app, Ho, Ho', Hf', He', Hv', Hv, Hf, He.
  now unfold unlink_if_staged.
Qed.

Lemma upload_pdf_observed (req : Request) (f : File) w :
  file req = Some f ->
  let o := upload_pdf lib req w in
  observe (emitted o) =
    expected_reply lib (shouldAnalyze req) (js "Failed to process PDF.")
      (extract_pdf lib req (file_path f) w) ++
    unlink_if_staged w (file_path f) /\
  files (final o) = delete (file_path f) (files w) /\
  GEMINI_API_KEY (final o) = GEMINI_API_KEY w /\
  value o = Ok tt.
Proof.
  intros Hfile. unfold upload_pdf. rewrite Hfile. cbv zeta.
  rewrite emitted_bind, final_bind, value_bind, observe_app.
  change (value (console_log ?l w)) with (Ok (A := unit) tt).
  change (final (console_log ?l w)) with w.
  cbv iota beta.
  apply (handler_observed (extract_pdf lib req (file_path f))), silent_extract_pdf.
Qed.

Lemma upload_image_observed (req : Request) (f : File) w :
  file req = Some f ->
  let o := upload_image lib req w in
  observe (emitted o) =
    expected_reply lib (shouldAnalyze req) (js "Failed to extract image text.")
      (extract_image lib req (file_path f) w) ++
    unlink_if_staged w (file_path f) /\
  files (final o) = delete (file_path f) (files w) /\
  GEMINI_API_KEY (final o) = GEMINI_API_KEY w /\
  value o = Ok tt.
Proof.
  intros Hfile. unfold upload_image. rewrite Hfile. cbv zeta.
  rewrite emitted_bind, final_bind, value_bind, observe_app.
  change (value (console_log ?l w)) with (Ok (A := unit) tt).
  change (final (console_log ?l w)) with w.
  cbv iota beta.
  apply (handler_observed (extract_image lib req (file_path f))), silent_extract_image.
Qed.

Lemma handler_seen (ep : Endpoint) (req : Request) (f : File) w :
  file req = Some f ->
  let o := handler lib ep req w in
  observe (emitted o) =
    expected_reply lib (shouldAnalyze req) (failure_text ep)
      (extraction lib ep req (file_path f) w) ++
    unlink_if_staged w (file_path f) /\
  files (final o) = delete (file_path f) (files w) /\
  GEMINI_API_KEY (final o) = GEMINI_API_KEY w /\
  value o = Ok tt.
Proof.
  destruct ep; [apply upload_pdf_observed | apply upload_image_observed].
Qed.

End Programs.

(** ** Strings *)

Section Strings.

Lemma eqb_eq (a b : jsstring) : JsString.eqb a b = true <-> a = b.
Proof.
  revert b. induction a as [|x a IH]; intros [|y b]; simpl; try easy.
  rewrite andb_true_iff, N.eqb_eq, IH. split.
  - now intros [-> ->].
  - intros H. now inversion H.
Qed.

Lemma strict_eq_string_true (v : jsval) (lit : jsstring) :
  JsVal.strict_eq_string v lit = true <-> v = VString lit.
Proof.
  destruct v; simpl; try (split; [discriminate | intros H; discriminate H]).
  rewrite eqb_eq. split; [now intros -> | intros H; now inversion H].
Qed.

Lemma trimStart_nil (s : jsstring) :
  trimStart s = [] <-> forallb isWhiteSpace s = true.
Proof.
  induction s as [|c s IH]; simpl; [easy|].
  destruct (isWhiteSpace c); simpl; [exact IH|]. split; discriminate.
Qed.

Lemma trimStart_blank (s : jsstring) :
  forallb isWhiteSpace (trimStart s) = true -> trimStart s = [].
Proof.
  induction s as [|c s IH]; simpl; [easy|].
  destruct (isWhiteSpace c) eqn:Hc; [exact IH|].
  simpl. now rewrite Hc.
Qed.

Lemma forallb_rev {A} (p : A -> bool) (l : list A) :
  forallb p (rev l) = forallb p l.
Proof.
  induction l as [|x l IH]; simpl; [reflexivity|].
  rewrite forallb_app, IH. simpl. rewrite andb_true_r. apply andb_comm.
Qed.

(** Trimming leaves nothing exactly when every code unit is white space. *)
Lemma trim_nil (s : jsstring) :
  trim s = [] <-> forallb isWhiteSpace s = true.
Proof.
  unfold trim, trimEnd. rewrite <- trimStart_nil. split.
  - intros H. apply (f_equal (@rev N)) in H. rewrite rev_involutive in H.
    simpl in H. apply trimStart_nil in H. rewrite forallb_rev in H.
    now apply trimStart_blank.
  - intros ->. reflexivity.
Qed.

Lemma wants_analysis_true (flag : bool) (text : jsstring) :
  wants_analysis flag text = true <-> flag = true /\ trim text <> [].
Proof.
  unfold wants_analysis. rewrite andb_true_iff.
  destruct (trim text); simpl; split; intros [H1 H2]; split; congruence.
Qed.

Lemma wants_analysis_false (flag : bool) (text : jsstring) :
  flag = false \/ forallb isWhiteSpace text = true ->
  wants_analysis flag text = false.
Proof.
  unfold wants_analysis. intros [-> | H]; [reflexivity|].
  apply trim_nil in H. rewrite H. apply andb_false_r.
Qed.

End Strings.

(** ** The handlers, seen through their observable events *)

Section Handlers.
Context {Ext : Type} (lib : Library Ext).
Implicit Types w : World Ext.

Lemma request_line_is_request :
  is_analysis_request (ELog [LStr analysis_request_line]) = true.
Proof. reflexivity. Qed.

Lemma attempted_app (s t : list Event) :
  analysis_attempted (s ++ t) = analysis_attempted s || analysis_attempted t.
Proof. apply existsb_app. Qed.

Lemma attempted_unlink w (p : path) :
  analysis_attempted (unlink_if_staged w p) = false.
Proof. unfold unlink_if_staged. now destruct (files w !! p). Qed.

Lemma responses_unlink w (p : path) : responses (unlink_if_staged w p) = [].
Proof. unfold unlink_if_staged. now destruct (files w !! p). Qed.

(** With no file, a handler logs one line and replies 400. *)
Lemma handler_no_file (ep : Endpoint) (req : Request) w :
  file req = None ->
  handler lib ep req w =
  {| value := Ok tt; final := w;
     emitted := [ELog [LStr (received_line ep)];
                 ESend 400 (BText (js "No file uploaded."))] |}.
Proof.
  intros Hfile. destruct ep; simpl; unfold upload_pdf, upload_image;
    now rewrite Hfile.
Qed.

Lemma handler_attempted (ep : Endpoint) (req : Request) (f : File) w :
  file req = Some f ->
  analysis_attempted (emitted (handler lib ep req w)) =
  match value (extraction lib ep req (file_path f) w) with
  | Ok text => wants_analysis (shouldAnalyze req) text
  | Throw _ => false
  end.
Proof.
  intros Hfile. destruct (handler_seen lib ep req f w Hfile) as (Ho & _).
  cbv zeta in Ho. rewrite <- attempted_observe, Ho, attempted_app, attempted_unlink.
  rewrite orb_false_r. unfold expected_reply.
  destruct (value (extraction lib ep req (file_path f) w)) as [text|e]; [|reflexivity].
  destruct (wants_analysis (shouldAnalyze req) text); reflexivity.
Qed.

Lemma handler_responses (ep : Endpoint) (req : Request) (f : File) w :
  file req = Some f ->
  let ex := extraction lib ep req (file_path f) w in
  responses (emitted (handler lib ep req w)) =
  match value ex with
  | Ok text =>
      if wants_analysis (shouldAnalyze req) text then
        match value (getSocialMediaAnalysis lib text (final ex)) with
        | Ok a => [(200%nat, BJson text a)]
        | Throw _ => [(500%nat, BText (failure_text ep))]
        end
      else [(200%nat, BJson text VNull)]
  | Throw _ => [(500%nat, BText (failure_text ep))]
  end.
Proof.
  intros Hfile. destruct (handler_seen lib ep req f w Hfile) as (Ho & _).
  cbv zeta in *. rewrite <- responses_observe, Ho, responses_app, responses_unlink.
  rewrite app_nil_r. unfold expected_reply.
  destruct (value (extraction lib ep req (file_path f) w)) as [text|e]; [|reflexivity].
  destruct (wants_analysis (shouldAnalyze req) text); [|reflexivity].
  now destruct (value (getSocialMediaAnalysis lib text _)).
Qed.

Lemma handler_unlinks (ep : Endpoint) (req : Request) (f : File) w :
  file req = Some f ->
  List.filter is_unlink (emitted (handler lib ep req w)) =
  unlink_if_staged w (file_path f).
Proof.
  intros Hfile. destruct (handler_seen lib ep req f w Hfile) as (Ho & _).
  cbv zeta in *. rewrite <- unlinks_observe, Ho, List.filter_app. unfold expected_reply.
  assert (List.filter is_unlink (unlink_if_staged w (file_path f)) =
          unlink_if_staged w (file_path f)) as ->.
  { unfold unlink_if_staged. now destruct (files w !! file_path f). }
  destruct (value (extraction lib ep req (file_path f) w)) as [text|e]; [|reflexivity].
  destruct (wants_analysis (shouldAnalyze req) text); [|reflexivity].
  now destruct (value (getSocialMediaAnalysis lib text _)).
Qed.

Lemma handler_staging (ep : Endpoint) (req : Request) (f : File) w :
  file req = Some f ->
  staging (emitted (handler lib ep req w)) = unlink_if_staged w (file_path f).
Proof.
  intros Hfile. destruct (handler_seen lib ep req f w Hfile) as (Ho & _).
  cbv zeta in *. rewrite <- staging_observe, Ho. unfold staging.
  rewrite List.filter_app. unfold expected_reply.
  assert (List.filter (fun e => is_write e || is_unlink e)
            (unlink_if_staged w (file_path f)) =
          unlink_if_staged w (file_path f)) as ->.
  { unfold unlink_if_staged. now destruct (files w !! file_path f). }
  destruct (value (extraction lib ep req (file_path f) w)) as [text|e]; [|reflexivity].
  destruct (wants_analysis (shouldAnalyze req) text); [|reflexivity].
  now destruct (value (getSocialMediaAnalysis lib text _)).
Qed.

(** A request with a file part: multer stages the file, then the
    handler runs on the staged path. *)
Lemma app_post_staged (dirname : jsstring) (ep : Endpoint) (u : Upload)
    (part : FilePart) w :
  file_part u = Some part ->
  let p := uploadDir dirname ++ js "/" ++
           (of_N (clock w) ++ js "_" ++ originalname part) in
  let req := {| file := Some {| file_path := p |}; body := fields u |} in
  let w1 := {| files := <[p := content part]> (files w);
               GEMINI_API_KEY := GEMINI_API_KEY w;
               clock := clock w; ext := ext w |} in
  app_post lib dirname ep u w =
  {| value := value (handler lib ep req w1);
     final := final (handler lib ep req w1);
     emitted := EFs (WriteFile p (content part)) ::
                emitted (handler lib ep req w1) |}.
Proof.
  intros Hpart. unfold app_post, upload_single. rewrite Hpart. reflexivity.
Qed.

(** A request without a file part: nothing is staged, the handler
    replies 400. *)
Lemma app_post_no_file (dirname : jsstring) (ep : Endpoint) (u : Upload) w :
  file_part u = None ->
  app_post lib dirname ep u w =
  {| value := Ok tt; final := w;
     emitted := [ELog [LStr (received_line ep)];
                 ESend 400 (BText (js "No file uploaded."))] |}.
Proof.
  intros Hpart. unfold app_post, upload_single. rewrite Hpart.
  unfold bind at 1. cbn [value final emitted ret app].
  now rewrite (handler_no_file ep {| file := None; body := fields u |} w eq_refl).
Qed.

End Handlers.

(** ** multer and Express around the handlers *)

Section Refused.
Context {Ext : Type} (lib : Library Ext) (dirname : jsstring).
Context (error_page : exn -> jsstring).
Implicit Types w : World Ext.











End Refused.

(** ** The analysis client, case by case *)

Section AnalysisClient.
Context {Ext : Type} (lib : Library Ext).
Implicit Types w : World Ext.

(** With a key, the client posts the prompt to the endpoint. *)
Lemma analysis_posts (text key : jsstring) w :
  GEMINI_API_KEY w = Some key ->
  key <> [] ->
  exists rest,
    emitted (getSocialMediaAnalysis lib text w) =
    ELog [LStr analysis_request_line] ::
    ECall (AxiosPost (apiUrl key) (requestBody text) requestConfig)
          (fst (lib _ (AxiosPost (apiUrl key) (requestBody text) requestConfig) (ext w))) ::
    rest.
Proof.
  intros Hkey Hne. unfold getSocialMediaAnalysis.
  rewrite emitted_bind. cbn [value final emitted console_log emit app].
  rewrite emitted_bind. cbn [value final emitted env_GEMINI_API_KEY app].
  rewrite Hkey. cbn [default from_option id].
  destruct key as [|c key]; [congruence|]. cbn [JsString.truthy negb].
  rewrite emitted_try_catch, emitted_bind.
  cbn [extern value final emitted app]. eexists. reflexivity.
Qed.

(** A network error is rethrown with the client's prefix. *)
Lemma analysis_network_error (text key : jsstring) (e : exn) w :
  GEMINI_API_KEY w = Some key ->
  key <> [] ->
  fst (lib _ (AxiosPost (apiUrl key) (requestBody text) requestConfig) (ext w)) = Throw e ->
  value (getSocialMediaAnalysis lib text w) =
  Throw (Error (js "AI analysis failed: " ++ message e)).
Proof.
  intros Hkey Hne Hpost. unfold getSocialMediaAnalysis.
  rewrite value_bind. cbn [value final emitted console_log emit].
  rewrite value_bind. cbn [value final emitted env_GEMINI_API_KEY].
  rewrite Hkey. cbn [default from_option id].
  destruct key as [|c key]; [congruence|]. cbn [JsString.truthy negb].
  rewrite value_try_catch, value_bind.
  cbn [extern value final emitted]. rewrite Hpost.
  rewrite value_bind. reflexivity.
Qed.

(** A response without a usable first candidate is an error too. *)
Lemma analysis_malformed_response (text key : jsstring) (data : jsval) w :
  GEMINI_API_KEY w = Some key ->
  key <> [] ->
  fst (lib _ (AxiosPost (apiUrl key) (requestBody text) requestConfig) (ext w)) = Ok data ->
  JsVal.nullish data = false ->
  JsVal.truthy (opt_first (JsVal.member data (js "candidates"))) = false ->
  value (getSocialMediaAnalysis lib text w) =
  Throw (Error (js "AI analysis failed: " ++
                js "Failed to parse analysis from the AI response.")).
Proof.
  intros Hkey Hne Hpost Hdata Hcand. unfold getSocialMediaAnalysis.
  rewrite value_bind. cbn [value final emitted console_log emit].
  rewrite value_bind. cbn [value final emitted env_GEMINI_API_KEY].
  rewrite Hkey. cbn [default from_option id].
  destruct key as [|c key]; [congruence|]. cbn [JsString.truthy negb].
  rewrite value_try_catch, value_bind.
  cbn [extern value final emitted]. rewrite Hpost.
  rewrite value_bind. unfold get_member at 1. rewrite Hdata.
  cbn [ret value final]. rewrite Hcand. cbn [andb].
  rewrite !value_bind. reflexivity.
Qed.

End AnalysisClient.

(** The first candidate's text comes back as the analysis. *)
Example analysis_success_example :
  value (getSocialMediaAnalysis
           (Demo.library 1 Demo.pdf (Ok (js "Sale")) (Ok (Demo.candidates (js "## Improved Text"))))
           (js "Sale") (Demo.world (Some (js "k")) [Byte.x25]))
  = Ok (VString (js "## Improved Text")).
Proof. vm_compute. reflexivity. Qed.

(** ** Properties of the specification *)

(** C1. On both routes the analysis client is called if and only if a file
    was staged, extraction produced a text, the analyze flag is true and the
    text is not empty once trimmed.  When the client is not called, a JSON
    reply can only carry a null analysis; in particular, when extraction
    produced a text and the flag is false or the text is only white space,
    the client is not called and the one reply is 200 with that text and a
    null analysis. *)
Theorem analysis_iff_requested_and_not_blank {Ext : Type} (lib : Library Ext)
    (ep : Endpoint) (req : Request) (w : World Ext) :
  let o := handler lib ep req w in
  (analysis_attempted (emitted o) = true <->
   exists f text,
     file req = Some f /\
     value (extraction lib ep req (file_path f) w) = Ok text /\
     shouldAnalyze req = true /\ trim text <> []) /\
  (analysis_attempted (emitted o) = false ->
   forall status text analysis,
     In (status, BJson text analysis) (responses (emitted o)) ->
     analysis = VNull) /\
  (forall f text,
     file req = Some f ->
     value (extraction lib ep req (file_path f) w) = Ok text ->
     shouldAnalyze req = false \/ forallb isWhiteSpace text = true ->
     analysis_attempted (emitted o) = false /\
     responses (emitted o) = [(200%nat, BJson text VNull)]).
Proof.
  cbv zeta. destruct (file req) as [f|] eqn:Hfile.
  - pose proof (handler_attempted lib ep req f w Hfile) as Ha.
    pose proof (handler_responses lib ep req f w Hfile) as Hr. cbv zeta in Hr.
    rewrite Ha, Hr. clear Ha Hr.
    destruct (value (extraction lib ep req (file_path f) w)) as [text|e] eqn:Hex.
    + split; [split|split].
      * intros Hw. exists f, text. apply wants_analysis_true in Hw. tauto.
      * intros (f' & text' & Hf' & Hex' & Hflag & Htrim).
        injection Hf' as <-. rewrite Hex in Hex'. injection Hex' as <-.
        apply wants_analysis_true. tauto.
      * intros Hw status text' analysis Hin. rewrite Hw in Hin.
        destruct Hin as [Hin | []]. now inversion Hin.
      * intros f' text' Hf' Hex' Hblank.
        injection Hf' as <-. rewrite Hex in Hex'. injection Hex' as <-.
        now rewrite wants_analysis_false.
    + split; [split|split].
      * discriminate.
      * intros (f' & text' & Hf' & Hex' & _).
        injection Hf' as <-. rewrite Hex in Hex'. discriminate.
      * intros _ status text' analysis [Hin | []]. discriminate.
      * intros f' text' Hf' Hex'. injection Hf' as <-. rewrite Hex in Hex'.
        discriminate.
  - rewrite (handler_no_file lib ep req w Hfile). cbn [emitted].
    assert (analysis_attempted
              [ELog [LStr (received_line ep)];
               ESend 400 (BText (js "No file uploaded."))] = false) as ->
      by now destruct ep.
    split; [split|split].
    + discriminate.
    + intros (f' & _ & Hf' & _). discriminate.
    + intros _ status text' analysis [Hin | []]. discriminate.
    + intros f' text' Hf'. discriminate.
Qed.

(** A scanned two-page upload with [analyze=true]: the client is called. *)
Example analysis_attempted_example :
  analysis_attempted
    (emitted (upload_pdf
                (Demo.library 2 Demo.pdf (Ok (js "Sale now on")) (Ok (Demo.candidates (js "ok"))))
                (Demo.request "true" "true")
                (Demo.world (Some (js "k")) [Byte.x25]))) = true.
Proof. vm_compute. reflexivity. Qed.

(** The same upload when OCR reads only blanks: the client is not called. *)
Example analysis_skipped_example :
  responses
    (emitted (upload_pdf
                (Demo.library 2 Demo.pdf (Ok (js "  ")) (Ok (Demo.candidates (js "ok"))))
                (Demo.request "true" "true")
                (Demo.world (Some (js "k")) [Byte.x25])))
  = [(200%nat, BJson (js "  " ++ newline ++ js "  " ++ newline) VNull)].
Proof. vm_compute. reflexivity. Qed.

(** C2. When a request carries a file, multer stages it under
    [uploads/<now>_<originalname>]; whatever the libraries answer afterwards
    (so on success, on extraction failure and on analysis failure alike), the
    staging directory sees exactly that one write followed by exactly one
    removal of the same path, the handler completes, and the path no longer
    exists. *)
Theorem staged_file_removed_exactly_once {Ext : Type} (lib : Library Ext)
    (dirname : jsstring) (ep : Endpoint) (u : Upload) (part : FilePart)
    (w : World Ext) :
  file_part u = Some part ->
  let o := app_post lib dirname ep u w in
  let p := uploadDir dirname ++ js "/" ++
           (of_N (clock w) ++ js "_" ++ originalname part) in
  staging (emitted o) = [EFs (WriteFile p (content part)); EFs (UnlinkSync p)] /\
  List.filter is_unlink (emitted o) = [EFs (UnlinkSync p)] /\
  files (final o) !! p = None /\
  value o = Ok tt.
Proof.
  intros Hpart. cbv zeta.
  rewrite (app_post_staged lib dirname ep u part w Hpart).
  set (p := uploadDir dirname ++ js "/" ++
            (of_N (clock w) ++ js "_" ++ originalname part)).
  set (req := {| file := Some {| file_path := p |}; body := fields u |}).
  set (w1 := {| files := <[p := content part]> (files w);
                GEMINI_API_KEY := GEMINI_API_KEY w;
                clock := clock w; ext := ext w |}).
  cbn [value final emitted].
  assert (file req = Some {| file_path := p |}) as Hfile by reflexivity.
  destruct (handler_seen lib ep req _ w1 Hfile) as (_ & Hf & _ & Hv).
  pose proof (handler_staging lib ep req _ w1 Hfile) as Hs.
  pose proof (handler_unlinks lib ep req _ w1 Hfile) as Hu.
  cbv zeta in Hf, Hv. cbn [file_path] in *.
  assert (unlink_if_staged w1 p = [EFs (UnlinkSync p)]) as Hp.
  { unfold unlink_if_staged, w1. cbn [files]. now rewrite lookup_insert_eq. }
  rewrite Hp in Hs, Hu.
  repeat split.
  - unfold staging in *. cbn [List.filter is_write is_unlink orb]. now rewrite Hs.
  - cbn [List.filter is_unlink]. exact Hu.
  - rewrite Hf. apply lookup_delete_eq.
  - exact Hv.
Qed.

Lemma staged_file_removed_exactly_once_witness :
  let o := app_post (Demo.library 1 Demo.pdf (Ok (js "Sale")) (Throw (Error (js "timeout"))))
                    (js "/srv") UploadPdf (Demo.upload "false" "true")
                    Demo.empty_world in
  staging (emitted o) =
    [EFs (WriteFile Demo.staged [Byte.x25]); EFs (UnlinkSync Demo.staged)] /\
  List.filter is_unlink (emitted o) = [EFs (UnlinkSync Demo.staged)] /\
  files (final o) !! Demo.staged = None /\
  value o = Ok tt.
Proof.
  exact (staged_file_removed_exactly_once
           (Demo.library 1 Demo.pdf (Ok (js "Sale")) (Throw (Error (js "timeout"))))
           (js "/srv") UploadPdf (Demo.upload "false" "true")
           {| originalname := js "post.pdf"; content := [Byte.x25] |}
           Demo.empty_world eq_refl).
Defined.

(** The three ways out of the handler, on one staged upload: a reply with
    the analysis, a corrupted byte stream, and an analysis that fails.  Each
    time the staging directory sees the write, then the one removal. *)
Example exit_paths_example :
  let good := Demo.library 1 Demo.pdf (Ok (js "Sale")) (Ok (Demo.candidates (js "ok"))) in
  let down := Demo.library 1 Demo.pdf (Ok (js "Sale")) (Throw (Error (js "timeout"))) in
  let keyed := {| files := ∅; GEMINI_API_KEY := Some (js "k");
                  clock := 1700000000000; ext := 0%nat |} in
  let corrupted :=
    {| file_part := Some {| originalname := js "post.pdf"; content := [Byte.x00] |};
       fields := {[ js "analyze" := VString (js "true") ]} |} in
  let run lib u := app_post lib (js "/srv") UploadPdf u keyed in
  (responses (emitted (run good (Demo.upload "false" "true")))
     = [(200%nat, BJson (js "Hello World") (VString (js "ok")))] /\
   staging (emitted (run good (Demo.upload "false" "true")))
     = [EFs (WriteFile Demo.staged [Byte.x25]); EFs (UnlinkSync Demo.staged)]) /\
  (responses (emitted (run good corrupted))
     = [(500%nat, BText (js "Failed to process PDF."))] /\
   staging (emitted (run good corrupted))
     = [EFs (WriteFile Demo.staged [Byte.x00]); EFs (UnlinkSync Demo.staged)]) /\
  (responses (emitted (run down (Demo.upload "false" "true")))
     = [(500%nat, BText (js "Failed to process PDF."))] /\
   staging (emitted (run down (Demo.upload "false" "true")))
     = [EFs (WriteFile Demo.staged [Byte.x25]); EFs (UnlinkSync Demo.staged)]).
Proof. vm_compute. repeat split. Qed.

(** C3. On both routes, when extraction produced a text, analysis was
    requested on a text that is not blank, and the analysis client then
    threw, whatever the cause, the only reply is the handler's 500 with its
    fixed plain-text body: the extracted text is not sent. *)
Theorem analysis_failure_discards_text {Ext : Type} (lib : Library Ext)
    (ep : Endpoint) (req : Request) (f : File) (w : World Ext)
    (text : jsstring) (e : exn) :
  file req = Some f ->
  let ex := extraction lib ep req (file_path f) w in
  value ex = Ok text ->
  shouldAnalyze req = true ->
  trim text <> [] ->
  value (getSocialMediaAnalysis lib text (final ex)) = Throw e ->
  responses (emitted (handler lib ep req w)) =
  [(500%nat, BText (failure_text ep))].
Proof.
  intros Hfile ex Hex Hflag Htrim Hfail.
  pose proof (handler_responses lib ep req f w Hfile) as Hr. cbv zeta in Hr.
  fold ex in Hr. rewrite Hr, Hex, Hfail.
  assert (wants_analysis (shouldAnalyze req) text = true) as ->
    by (apply wants_analysis_true; tauto).
  reflexivity.
Qed.

Lemma analysis_failure_discards_text_witness :
  responses
    (emitted (upload_pdf
                (Demo.library 1 Demo.pdf (Ok (js "Sale")) (Throw (Error (js "timeout"))))
                (Demo.request "false" "true")
                (Demo.world (Some (js "k")) [Byte.x25])))
  = [(500%nat, BText (js "Failed to process PDF."))].
Proof.
  apply (analysis_failure_discards_text
           (Demo.library 1 Demo.pdf (Ok (js "Sale")) (Throw (Error (js "timeout"))))
           UploadPdf (Demo.request "false" "true") {| file_path := Demo.staged |}
           (Demo.world (Some (js "k")) [Byte.x25])
           (js "Hello World")
           (Error (js "AI analysis failed: timeout"))).
  - reflexivity.
  - vm_compute. reflexivity.
  - vm_compute. reflexivity.
  - vm_compute. discriminate.
  - vm_compute. reflexivity.
Defined.




(** C7. Called with no API key in the environment, the analysis client
    writes its console line and throws the configuration error; it calls no
    library, so no request goes to the endpoint, and the world is unchanged. *)
Theorem missing_key_fails_before_network {Ext : Type} (lib : Library Ext)
    (text : jsstring) (w : World Ext) :
  GEMINI_API_KEY w = None ->
  let o := getSocialMediaAnalysis lib text w in
  value o =
    Throw (Error (js "GEMINI_API_KEY is not defined in the environment variables.")) /\
  emitted o = [ELog [LStr analysis_request_line]] /\
  List.filter is_network_call (emitted o) = [] /\
  List.filter is_extern (emitted o) = [] /\
  final o = w.
Proof.
  intros Hkey. cbv zeta. unfold getSocialMediaAnalysis.
  rewrite value_bind, emitted_bind, final_bind.
  cbn [value final emitted console_log emit].
  rewrite value_bind, emitted_bind, final_bind.
  cbn [value final emitted env_GEMINI_API_KEY]. rewrite Hkey.
  cbn [default JsString.truthy negb throw value final emitted app
       List.filter is_network_call is_extern].
  repeat split.
Qed.

Lemma missing_key_fails_before_network_witness :
  value (getSocialMediaAnalysis
           (Demo.library 1 Demo.pdf (Ok (js "Sale")) (Ok (Demo.candidates (js "ok"))))
           (js "Sale") Demo.empty_world)
  = Throw (Error (js "GEMINI_API_KEY is not defined in the environment variables.")).
Proof.
  apply (missing_key_fails_before_network
           (Demo.library 1 Demo.pdf (Ok (js "Sale")) (Ok (Demo.candidates (js "ok"))))
           (js "Sale") Demo.empty_world eq_refl).
Defined.

(** C8. The scanned and analyze flags are true exactly when the form field
    is the string "true"; a missing field, a string spelled otherwise and a
    value that is not a string all give false. *)
Theorem flags_are_exact_string_comparisons (req : Request) :
  (isScanned req = true <-> body req !! js "scanned" = Some (VString (js "true"))) /\
  (shouldAnalyze req = true <-> body req !! js "analyze" = Some (VString (js "true"))).
Proof.
  unfold isScanned, shouldAnalyze, field.
  split; rewrite strict_eq_string_true.
  - destruct (body req !! js "scanned") as [v|]; simpl;
      split; intros H; congruence.
  - destruct (body req !! js "analyze") as [v|]; simpl;
      split; intros H; congruence.
Qed.

(** "True", "1", a repeated field and an absent field are all false. *)
Example flags_other_values :
  isScanned {| file := None; body := {[ js "scanned" := VString (js "True") ]} |} = false /\
  shouldAnalyze {| file := None; body := {[ js "analyze" := VString (js "1") ]} |} = false /\
  shouldAnalyze {| file := None;
                   body := {[ js "analyze" := VArray [VString (js "true"); VString (js "true")] ]} |}
    = false /\
  isScanned {| file := None; body := ∅ |} = false /\
  isScanned {| file := None; body := {[ js "scanned" := VString (js "true") ]} |} = true.
Proof. vm_compute. repeat split. Qed.

(** ** The scanned branch, step by step *)

Section Scanned.
Context {Ext : Type} (lib : Library Ext).
Implicit Types w : World Ext.

(** A sequence that completes went through both of its parts. *)
Lemma bind_ok_inv {A B} (m : M Ext A) (k : A -> M Ext B) w (b : B) :
  value (bind m k w) = Ok b ->
  exists a,
    value (m w) = Ok a /\
    value (k a (final (m w))) = Ok b /\
    emitted (bind m k w) = emitted (m w) ++ emitted (k a (final (m w))).
Proof.
  rewrite value_bind, emitted_bind.
  destruct (value (m w)) as [a|e]; [|discriminate].
  intros H. now exists a.
Qed.

Lemma extern_ok {A} (c : Extern A) w (a : A) :
  value (extern lib c w) = Ok a ->
  emitted (extern lib c w) = [ECall c (Ok a)].
Proof. unfold extern. cbn [value emitted]. now intros ->. Qed.

Lemma nonnull_ok {A} (o : option A) (action name : string) w (a : A) :
  value (nonnull (Ext := Ext) o action name w) = Ok a ->
  o = Some a /\ emitted (nonnull (Ext := Ext) o action name w) = [].
Proof.
  destruct o as [x|]; cbn; [|discriminate]. intros H. now inversion H.
Qed.

End Scanned.

(** Split a completed sequence held in [H] at its first statement. *)
Ltac split_bind H x Hx :=
  apply bind_ok_inv in H;
  let Hev := fresh "Hev" in
  destruct H as (x & Hx & H & Hev);
  rewrite Hev; clear Hev; cbv beta in H.

Section ScannedPages.
Context {Ext : Type} (lib : Library Ext).
Implicit Types w : World Ext.

Lemma create_ok (wd ht : Q) w (cc : CanvasAndContext) :
  value (NodeCanvasFactory_create lib wd ht w) = Ok cc ->
  exists c ctx,
    cc = {| canvas := Some c; context := Some ctx |} /\
    emitted (NodeCanvasFactory_create lib wd ht w) =
    [ECall (CreateCanvas wd ht) (Ok c); ECall (GetContext c (js "2d")) (Ok ctx)].
Proof.
  unfold NodeCanvasFactory_create. intros H.
  split_bind H c Hc. rewrite (extern_ok lib _ _ _ Hc).
  split_bind H ctx Hctx. rewrite (extern_ok lib _ _ _ Hctx).
  cbn in H. injection H as <-. now exists c, ctx.
Qed.

Lemma destroy_ok (c : Canvas) (ctx : option Context2d) w (cc : CanvasAndContext) :
  value (NodeCanvasFactory_destroy lib {| canvas := Some c; context := ctx |} w) = Ok cc ->
  emitted (NodeCanvasFactory_destroy lib {| canvas := Some c; context := ctx |} w) =
  [ECall (SetWidth c 0) (Ok tt); ECall (SetHeight c 0) (Ok tt)].
Proof.
  unfold NodeCanvasFactory_destroy. cbn [canvas]. intros H.
  split_bind H c1 Hc1. apply nonnull_ok in Hc1 as [Hc1 ->]. injection Hc1 as <-.
  split_bind H u1 Hu1. destruct u1. rewrite (extern_ok lib _ _ _ Hu1).
  split_bind H c2 Hc2. apply nonnull_ok in Hc2 as [Hc2 ->]. injection Hc2 as <-.
  split_bind H u2 Hu2. destruct u2. rewrite (extern_ok lib _ _ _ Hu2).
  reflexivity.
Qed.

(** A turn of the loop that completes made every call, in the order of
    the source, and appended the recognized text and one newline. *)
Lemma ocr_page_complete (doc : PDFDocument) (i : nat) (acc t : jsstring) w :
  value (ocr_page lib doc i acc w) = Ok t ->
  exists r,
    emitted (ocr_page lib doc i acc w) = page_events doc i r /\
    t = acc ++ (run_text r ++ newline).
Proof.
  unfold ocr_page. cbv zeta. intros H.
  split_bind H u0 Hu0. cbn [emitted console_log emit].
  split_bind H page Hpage. rewrite (extern_ok lib _ _ _ Hpage).
  split_bind H vp Hvp. rewrite (extern_ok lib _ _ _ Hvp).
  split_bind H cc Hcc. apply create_ok in Hcc as (c & ctx & -> & ->).
  cbn [canvas context] in *.
  split_bind H u1 Hu1. destruct u1. rewrite (extern_ok lib _ _ _ Hu1).
  split_bind H c' Hc'. apply nonnull_ok in Hc' as [Hc' ->]. injection Hc' as <-.
  split_bind H png Hpng. rewrite (extern_ok lib _ _ _ Hpng).
  split_bind H text Htext. rewrite (extern_ok lib _ _ _ Htext).
  split_bind H u2 Hu2. destruct u2. rewrite (extern_ok lib _ _ _ Hu2).
  split_bind H cc' Hcc'. rewrite (destroy_ok _ _ _ _ Hcc').
  cbn in H. injection H as <-.
  exists {| run_page := page; run_viewport := vp; run_canvas := c;
            run_context := ctx; run_image := png; run_text := text |}.
  split; reflexivity.
Qed.

(** A loop that completes made one completed turn per page, for pages
    [i], [i+1], ... in this order. *)
Lemma ocr_pages_complete (doc : PDFDocument) (left i : nat) (acc t : jsstring) w :
  value (ocr_pages lib doc left i acc w) = Ok t ->
  exists runs,
    length runs = left /\
    emitted (ocr_pages lib doc left i acc w) = pages_events doc i runs /\
    t = acc ++ pages_text runs.
Proof.
  revert i acc w. induction left as [|left IH]; intros i acc w H.
  - cbn in H. injection H as <-. exists []. cbn. now rewrite app_nil_r.
  - cbn [ocr_pages] in *. split_bind H t1 Ht1.
    apply ocr_page_complete in Ht1 as (r & -> & ->).
    apply IH in H as (runs & Hlen & -> & ->).
    exists (r :: runs). cbn [length pages_events]. repeat split.
    + now rewrite Hlen.
    + unfold pages_text. cbn [map concat]. now rewrite <- !app_assoc.
Qed.

(** The scanned branch once the staged file is read and pdf.js has opened
    the document: the loop runs from the world pdf.js left. *)
Lemma extract_pdf_scanned (req : Request) (p : path) (b : bytes)
    (doc : PDFDocument) w :
  files w !! p = Some b ->
  isScanned req = true ->
  fst (lib _ (GetDocument b) (ext w)) = Ok doc ->
  let loop :=
    ocr_pages lib doc (numPages doc) 1 []
      {| files := files w; GEMINI_API_KEY := GEMINI_API_KEY w;
         clock := clock w; ext := snd (lib _ (GetDocument b) (ext w)) |} in
  value (extract_pdf lib req p w) = value loop /\
  emitted (extract_pdf lib req p w) =
    [ELog [LStr (js "Processing mode: " ++ js "SCANNED" ++
                 js ". Analysis requested: " ++ of_bool (shouldAnalyze req))];
     EFs (ReadFileSync p);
     ELog [LStr (js "[Scanned PDF]: Starting OCR process...")];
     ECall (GetDocument b) (Ok doc)] ++
    emitted loop ++
    match value loop with
    | Ok _ => [ELog [LStr (js "Text extraction complete.")]]
    | Throw _ => []
    end.
Proof.
  intros Hb Hscan Hdoc. unfold extract_pdf. rewrite Hscan. cbv zeta.
  cbn [negb].
  repeat (progress (rewrite ?value_bind, ?emitted_bind, ?final_bind;
                    cbn [console_log emit readFileSync extern value final emitted];
                    rewrite ?Hb, ?Hdoc)).
  match goal with |- context [value ?l] =>
    match l with ocr_pages _ _ _ _ _ _ => destruct (value l) end
  end; cbn [console_log emit ret value final emitted app];
    rewrite ?app_nil_r; split; reflexivity.
Qed.

(** The direct branch once the staged file is read. *)
Lemma extract_pdf_direct (req : Request) (p : path) (b : bytes) w :
  files w !! p = Some b ->
  isScanned req = false ->
  value (extract_pdf lib req p w) = fst (lib _ (PdfParse b) (ext w)).
Proof.
  intros Hb Hscan. unfold extract_pdf. rewrite Hscan. cbv zeta.
  cbn [negb].
  repeat (progress (rewrite ?value_bind, ?final_bind;
                    cbn [console_log emit readFileSync extern value final emitted];
                    rewrite ?Hb)).
  now destruct (fst (lib _ (PdfParse b) (ext w))).
Qed.

End ScannedPages.

Section Traces.
Context {Ext : Type} (lib : Library Ext).
Implicit Types w : World Ext.

(** After its first console line a handler runs its extraction. *)
Lemma handler_starts_with_extraction (ep : Endpoint) (req : Request) (f : File) w :
  file req = Some f ->
  exists rest,
    emitted (handler lib ep req w) =
    ELog [LStr (received_line ep)] ::
    emitted (extraction lib ep req (file_path f) w) ++ rest.
Proof.
  intros Hfile.
  destruct ep; unfold handler, extraction, upload_pdf, upload_image;
    rewrite Hfile; cbv zeta; rewrite emitted_bind;
    cbn [console_log emit emitted value final app received_line];
    unfold try_finally; cbn [emitted];
    rewrite emitted_try_catch, emitted_bind, <- !app_assoc;
    eexists; reflexivity.
Qed.

End Traces.

(** C5. A scanned-mode request whose staged file pdf.js opens as a document
    of N pages, and whose extraction completes: the loop made exactly N
    turns, for pages 1, 2, ..., N in this order and one after the other.
    Each turn fetched the page, took its viewport at scale 2, created a canvas
    of the viewport's size, rendered the page on it, encoded the canvas as
    PNG, ran the OCR on that buffer with language "eng", then released the
    page and the canvas before the next turn.  The extracted text is every
    recognized text followed by one newline, in page order, and it is the
    text of any 200 reply.  These events are part of the handler's trace. *)
Theorem scanned_pages_in_order {Ext : Type} (lib : Library Ext)
    (req : Request) (f : File) (w : World Ext) (b : bytes)
    (doc : PDFDocument) (text : jsstring) :
  file req = Some f ->
  files w !! file_path f = Some b ->
  isScanned req = true ->
  fst (lib _ (GetDocument b) (ext w)) = Ok doc ->
  value (extract_pdf lib req (file_path f) w) = Ok text ->
  exists runs : list PageRun,
    length runs = numPages doc /\
    emitted (extract_pdf lib req (file_path f) w) =
      [ELog [LStr (js "Processing mode: " ++ js "SCANNED" ++
                   js ". Analysis requested: " ++ of_bool (shouldAnalyze req))];
       EFs (ReadFileSync (file_path f));
       ELog [LStr (js "[Scanned PDF]: Starting OCR process...")];
       ECall (GetDocument b) (Ok doc)] ++
      pages_events doc 1 runs ++
      [ELog [LStr (js "Text extraction complete.")]] /\
    text = pages_text runs /\
    (exists rest,
       emitted (upload_pdf lib req w) =
       ELog [LStr (received_line UploadPdf)] ::
       emitted (extract_pdf lib req (file_path f) w) ++ rest) /\
    (forall status body,
       In (status, body) (responses (emitted (upload_pdf lib req w))) ->
       status = 200%nat ->
       exists analysis, body = BJson (pages_text runs) analysis).
Proof.
  intros Hfile Hb Hscan Hdoc Hex.
  destruct (extract_pdf_scanned lib req (file_path f) b doc w Hb Hscan Hdoc)
    as (Hv & He).
  cbv zeta in Hv, He. rewrite Hex in Hv. symmetry in Hv.
  rewrite Hv in He.
  destruct (ocr_pages_complete lib doc _ _ _ _ _ Hv) as (runs & Hlen & Hev & Ht).
  cbn [app] in Ht. subst text.
  exists runs. split; [exact Hlen|]. split; [now rewrite He, Hev|].
  split; [reflexivity|]. split.
  - exact (handler_starts_with_extraction lib UploadPdf req f w Hfile).
  - intros status body Hin Hs.
    pose proof (handler_responses lib UploadPdf req f w Hfile) as Hr.
    cbv zeta in Hr. cbn [handler extraction failure_text] in Hr.
    rewrite Hr, Hex in Hin. clear Hr.
    destruct (wants_analysis (shouldAnalyze req) (pages_text runs)).
    + destruct (value (getSocialMediaAnalysis lib (pages_text runs) _)) as [a|e].
      * destruct Hin as [Hin|[]]. inversion Hin. now exists a.
      * destruct Hin as [Hin|[]]. inversion Hin. subst. discriminate.
    + destruct Hin as [Hin|[]]. inversion Hin. now exists VNull.
Qed.

Lemma scanned_pages_in_order_witness :
  exists runs : list PageRun,
    length runs = 2%nat /\
    js "Sale" ++ newline ++ js "Sale" ++ newline = pages_text runs.
Proof.
  destruct (scanned_pages_in_order
              (Demo.library 2 Demo.pdf (Ok (js "Sale")) (Ok VNull))
              (Demo.request "true" "false") {| file_path := Demo.staged |}
              (Demo.world None [Byte.x25]) [Byte.x25]
              {| numPages := 2; doc_ref := 1 |}
              (js "Sale" ++ newline ++ js "Sale" ++ newline)
              eq_refl eq_refl eq_refl eq_refl eq_refl)
    as (runs & Hlen & _ & Ht & _).
  exists runs. split; [exact Hlen | exact Ht].
Defined.

(** When the OCR throws on page 1 of a two-page document the loop stops
    there: page 2 is never fetched, and the reply is the 500. *)
Example scanned_abort_example :
  let is_get_page e :=
    match e with ECall (GetPage _ _) _ => true | _ => false end in
  let o := upload_pdf
             (Demo.library 2 Demo.pdf (Throw (Error (js "worker died"))) (Ok VNull))
             (Demo.request "true" "false") (Demo.world None [Byte.x25]) in
  List.filter is_get_page (emitted o) =
    [ECall (GetPage {| numPages := 2; doc_ref := 1 |} 1) (Ok {| page_ref := 1 |})] /\
  responses (emitted o) = [(500%nat, BText (js "Failed to process PDF."))].
Proof. vm_compute. split; reflexivity. Qed.

(** C9. A scanned-mode request whose staged file pdf.js opens as a document
    of zero pages: the loop makes no turn (the extraction events hold no
    page event), the extracted text is the empty string, the analysis client
    is not called whatever the analyze flag says, and the one reply is 200
    with an empty text and a null analysis. *)
Theorem zero_pages_is_empty_success {Ext : Type} (lib : Library Ext)
    (req : Request) (f : File) (w : World Ext) (b : bytes) (doc : PDFDocument) :
  file req = Some f ->
  files w !! file_path f = Some b ->
  isScanned req = true ->
  fst (lib _ (GetDocument b) (ext w)) = Ok doc ->
  numPages doc = 0%nat ->
  emitted (extract_pdf lib req (file_path f) w) =
    [ELog [LStr (js "Processing mode: " ++ js "SCANNED" ++
                 js ". Analysis requested: " ++ of_bool (shouldAnalyze req))];
     EFs (ReadFileSync (file_path f));
     ELog [LStr (js "[Scanned PDF]: Starting OCR process...")];
     ECall (GetDocument b) (Ok doc);
     ELog [LStr (js "Text extraction complete.")]] /\
  value (extract_pdf lib req (file_path f) w) = Ok [] /\
  analysis_attempted (emitted (upload_pdf lib req w)) = false /\
  responses (emitted (upload_pdf lib req w)) = [(200%nat, BJson [] VNull)].
Proof.
  intros Hfile Hb Hscan Hdoc Hzero.
  destruct (extract_pdf_scanned lib req (file_path f) b doc w Hb Hscan Hdoc)
    as (Hv & He).
  cbv zeta in Hv, He. rewrite Hzero in Hv, He.
  cbn [ocr_pages ret value emitted app] in Hv, He.
  pose proof (handler_attempted lib UploadPdf req f w Hfile) as Ha.
  pose proof (handler_responses lib UploadPdf req f w Hfile) as Hr.
  cbv zeta in Hr. cbn [handler extraction failure_text] in Ha, Hr.
  rewrite Hv in Ha, Hr.
  assert (wants_analysis (shouldAnalyze req) [] = false) as Hw
    by (unfold wants_analysis; apply andb_false_r).
  rewrite Hw in Ha, Hr. auto.
Qed.

Lemma zero_pages_is_empty_success_witness :
  responses
    (emitted (upload_pdf
                (Demo.library 0 Demo.pdf (Ok (js "Sale")) (Ok VNull))
                (Demo.request "true" "true")
                (Demo.world (Some (js "k")) [Byte.x25])))
  = [(200%nat, BJson [] VNull)].
Proof.
  apply (zero_pages_is_empty_success
           (Demo.library 0 Demo.pdf (Ok (js "Sale")) (Ok VNull))
           (Demo.request "true" "true") {| file_path := Demo.staged |}
           (Demo.world (Some (js "k")) [Byte.x25]) [Byte.x25]
           {| numPages := 0; doc_ref := 1 |}
           eq_refl eq_refl eq_refl eq_refl eq_refl).
Defined.

(** C4. Direct mode, for a library that honours the contract of direct
    extraction: when the scanned field is not the string "true" and the
    staged bytes are a well-formed PDF, every 200 reply carries the
    concatenation of the pages' text objects in page order, and that reply
    is the only one when analysis is not requested; when the bytes are not a
    well-formed PDF, the only reply is the 500 of the handler. *)
Theorem direct_text_or_extraction_error {Ext : Type} (lib : Library Ext)
    (well_formed : bytes -> option PdfPages)
    (req : Request) (f : File) (w : World Ext) (b : bytes) :
  pdfParse_contract lib well_formed ->
  file req = Some f ->
  files w !! file_path f = Some b ->
  body req !! js "scanned" <> Some (VString (js "true")) ->
  let replies := responses (emitted (upload_pdf lib req w)) in
  match well_formed b with
  | Some pages =>
      (forall status body,
         In (status, body) replies -> status = 200%nat ->
         exists analysis, body = BJson (direct_text pages) analysis) /\
      (shouldAnalyze req = false ->
       replies = [(200%nat, BJson (direct_text pages) VNull)])
  | None => replies = [(500%nat, BText (js "Failed to process PDF."))]
  end.
Proof.
  intros Hlib Hfile Hb Hfield. cbv zeta.
  assert (isScanned req = false) as Hscan.
  { destruct (isScanned req) eqn:E; [|reflexivity].
    exfalso. apply Hfield. unfold isScanned, field in E.
    apply strict_eq_string_true in E.
    destruct (body req !! js "scanned"); unfold default, id in E; congruence. }
  pose proof (extract_pdf_direct lib req (file_path f) b w Hb Hscan) as Hv.
  pose proof (handler_responses lib UploadPdf req f w Hfile) as Hr.
  cbv zeta in Hr. cbn [handler extraction failure_text] in Hr.
  rewrite Hr. clear Hr. specialize (Hlib b (ext w)).
  destruct (well_formed b) as [pages|].
  - rewrite Hv, Hlib. split.
    + intros status body Hin Hs.
      destruct (wants_analysis (shouldAnalyze req) (direct_text pages)).
      * destruct (value (getSocialMediaAnalysis lib (direct_text pages) _)) as [a|e].
        -- destruct Hin as [Hin|[]]. inversion Hin. now exists a.
        -- destruct Hin as [Hin|[]]. inversion Hin. subst. discriminate.
      * destruct Hin as [Hin|[]]. inversion Hin. now exists VNull.
    + intros Hflag. now rewrite Hflag.
  - destruct Hlib as [err Herr]. now rewrite Hv, Herr.
Qed.

Lemma direct_text_or_extraction_error_witness :
  responses
    (emitted (upload_pdf
                (Demo.library 1 Demo.pdf (Ok (js "Sale")) (Ok VNull))
                (Demo.request "false" "false")
                (Demo.world None [Byte.x25])))
  = [(200%nat, BJson (js "Hello World") VNull)] /\
  responses
    (emitted (upload_pdf
                (Demo.library 1 Demo.pdf (Ok (js "Sale")) (Ok VNull))
                (Demo.request "false" "false")
                (Demo.world None [Byte.x00])))
  = [(500%nat, BText (js "Failed to process PDF."))].
Proof.
  assert (pdfParse_contract
            (Demo.library 1 Demo.pdf (Ok (js "Sale")) (Ok VNull))
            Demo.well_formed) as Hlib.
  { intros b e. unfold Demo.library, Demo.pdf. cbn [fst].
    destruct (Demo.well_formed b); [reflexivity | eexists; reflexivity]. }
  split.
  - apply (direct_text_or_extraction_error _ _
             (Demo.request "false" "false") {| file_path := Demo.staged |}
             (Demo.world None [Byte.x25]) [Byte.x25] Hlib eq_refl eq_refl).
    + vm_compute. discriminate.
    + reflexivity.
  - apply (direct_text_or_extraction_error _ _
             (Demo.request "false" "false") {| file_path := Demo.staged |}
             (Demo.world None [Byte.x00]) [Byte.x00] Hlib eq_refl eq_refl).
    vm_compute. discriminate.
Defined.

Section ImageRoute.
Context {Ext : Type} (lib : Library Ext).



End ImageRoute.



(** ** Computations whose events stay in a class *)

Section EmitsOnly.
Context {Ext : Type} (lib : Library Ext) (P : Event -> Prop).
Implicit Types w : World Ext.

Lemma emits_only_ret {A} (a : A) : emits_only P (ret (Ext := Ext) a).
Proof. intros w. constructor. Qed.

Lemma emits_only_throw {A} (e : exn) : emits_only P (throw (Ext := Ext) (A := A) e).
Proof. intros w. constructor. Qed.

Lemma emits_only_bind {A B} (m : M Ext A) (k : A -> M Ext B) :
  emits_only P m -> (forall a, emits_only P (k a)) -> emits_only P (bind m k).
Proof.
  intros Hm Hk w. rewrite emitted_bind. apply Forall_app. split; [apply Hm|].
  destruct (value (m w)); [apply Hk | constructor].
Qed.

Lemma emits_only_try_catch {A} (m : M Ext A) (h : exn -> M Ext A) :
  emits_only P m -> (forall e, emits_only P (h e)) -> emits_only P (try_catch m h).
Proof.
  intros Hm Hh w. rewrite emitted_try_catch. apply Forall_app. split; [apply Hm|].
  destruct (value (m w)); [constructor | apply Hh].
Qed.

Lemma emits_only_try_finally {A} (m : M Ext A) (c : M Ext unit) :
  emits_only P m -> emits_only P c -> emits_only P (try_finally m c).
Proof.
  intros Hm Hc w. unfold try_finally. cbn [emitted]. apply Forall_app.
  split; [apply Hm | apply Hc].
Qed.

Lemma emits_only_emit (e : Event) : P e -> emits_only P (emit (Ext := Ext) e).
Proof. intros He w. cbn. now repeat constructor. Qed.

Lemma emits_only_extern {A} (c : Extern A) :
  (forall r, P (ECall c r)) -> emits_only P (extern lib c).
Proof. intros Hc w. cbn. now repeat constructor. Qed.

Lemma emits_only_readFileSync (p : path) :
  P (EFs (ReadFileSync p)) -> emits_only P (readFileSync (Ext := Ext) p).
Proof. intros Hp w. cbn. now repeat constructor. Qed.

Lemma emits_only_existsSync (p : path) :
  P (EFs (ExistsSync p)) -> emits_only P (existsSync (Ext := Ext) p).
Proof. intros Hp w. cbn. now repeat constructor. Qed.

Lemma emits_only_unlinkSync (p : path) :
  P (EFs (UnlinkSync p)) -> emits_only P (unlinkSync (Ext := Ext) p).
Proof.
  intros Hp w. unfold unlinkSync. destruct (files w !! p); cbn; now repeat constructor.
Qed.

Lemma emits_only_writeFile (p : path) (b : bytes) :
  P (EFs (WriteFile p b)) -> emits_only P (writeFile (Ext := Ext) p b).
Proof. intros Hp w. cbn. now repeat constructor. Qed.

Lemma emits_only_env : emits_only P (env_GEMINI_API_KEY (Ext := Ext)).
Proof. intros w. constructor. Qed.

Lemma emits_only_Date_now : emits_only P (Date_now (Ext := Ext)).
Proof. intros w. constructor. Qed.

End EmitsOnly.

(** Walk through a program; what is left are the conditions on its events. *)
Ltac walk1 :=
  first
    [ apply emits_only_ret | apply emits_only_throw | apply emits_only_env
    | apply emits_only_Date_now
    | apply emits_only_bind; [|intros ?]
    | apply emits_only_try_catch; [|intros ?]
    | apply emits_only_try_finally
    | apply emits_only_extern; intros ?
    | apply emits_only_readFileSync | apply emits_only_existsSync
    | apply emits_only_unlinkSync | apply emits_only_writeFile
    | progress unfold console_log, console_error, res_json, res_send,
        nonnull, get_member, get_first
    | apply emits_only_emit
    | match goal with
      | |- emits_only _ (if ?b then _ else _) => destruct b
      | |- emits_only _ (match ?o with Some _ => _ | None => _ end) => destruct o
      end ].

Ltac walk := repeat walk1.

Section Classes.
Context {Ext : Type} (lib : Library Ext).
Implicit Types w : World Ext.

Lemma emits_only_weaken {A} (P Q : Event -> Prop) (m : M Ext A) :
  (forall e, P e -> Q e) -> emits_only P m -> emits_only Q m.
Proof. intros HPQ Hm w. eapply List.Forall_impl; [apply HPQ | apply Hm]. Qed.

(** The analysis client touches no file, and calls nothing but axios. *)
Lemma analysis_events (text : jsstring) :
  emits_only (fun e => (match e with EFs _ => False | _ => True end) /\
                       calls_only (fun A c => match c with AxiosPost _ _ _ => True | _ => False end) e)
             (getSocialMediaAnalysis lib text).
Proof. unfold getSocialMediaAnalysis. walk; now cbn. Qed.

Lemma create_events (wd ht : Q) :
  emits_only (fun e => (match e with EFs _ => False | _ => True end) /\
                       calls_only (fun A c => offline_call A c /\ not_get_page A c) e)
             (NodeCanvasFactory_create lib wd ht).
Proof. unfold NodeCanvasFactory_create. walk; now cbn. Qed.

Lemma destroy_events (cc : CanvasAndContext) :
  emits_only (fun e => (match e with EFs _ => False | _ => True end) /\
                       calls_only (fun A c => offline_call A c /\ not_get_page A c) e)
             (NodeCanvasFactory_destroy lib cc).
Proof. unfold NodeCanvasFactory_destroy. walk; now cbn. Qed.

End Classes.

(** Conclude from an event class a program is already known to stay in. *)
Ltac by_class H :=
  eapply emits_only_weaken; [|apply H];
  let e := fresh "e" in
  intros e; destruct e as [? | ? | ? | ? c ? | ? ?]; cbn; try tauto;
  destruct c; cbn; tauto.

Section HandlerClasses.
Context {Ext : Type} (lib : Library Ext).
Implicit Types w : World Ext.

(** The page loop touches no file and calls nothing but pdf.js,
    node-canvas and tesseract.js. *)
Lemma ocr_page_events (doc : PDFDocument) (i : nat) (acc : jsstring) :
  emits_only (fun e => (match e with EFs _ => False | _ => True end) /\
                       calls_only offline_call e)
             (ocr_page lib doc i acc).
Proof.
  unfold ocr_page.
  repeat first
    [ by_class (create_events lib) | by_class (destroy_events lib)
    | walk1 ]; now cbn.
Qed.

Lemma ocr_pages_events (doc : PDFDocument) (left i : nat) (acc : jsstring) :
  emits_only (fun e => (match e with EFs _ => False | _ => True end) /\
                       calls_only offline_call e)
             (ocr_pages lib doc left i acc).
Proof.
  revert i acc. induction left as [|left IH]; intros i acc; cbn [ocr_pages].
  - apply emits_only_ret.
  - apply emits_only_bind; [apply ocr_page_events | intros t; apply IH].
Qed.

Lemma extract_pdf_events (req : Request) (p : path) :
  emits_only (fun e => touches_only p e /\ calls_only offline_call e)
             (extract_pdf lib req p).
Proof.
  unfold extract_pdf. cbv zeta.
  destruct (isScanned req); cbn [negb];
    repeat first [ by_class (ocr_pages_events) | walk1 ]; now cbn.
Qed.

Lemma extract_pdf_direct_events (req : Request) (p : path) :
  isScanned req = false ->
  emits_only (calls_only direct_call) (extract_pdf lib req p).
Proof.
  intros Hscan. unfold extract_pdf. rewrite Hscan. cbv zeta. cbn [negb].
  walk; now cbn.
Qed.

Lemma extract_image_events (req : Request) (p : path) :
  emits_only (fun e => (match e with EFs _ => False | _ => True end) /\
                       calls_only (image_call p) e)
             (extract_image lib req p).
Proof. unfold extract_image. cbv zeta. walk; now cbn. Qed.

Lemma analyze_and_reply_events (flag : bool) (text : jsstring) :
  emits_only (fun e => (match e with EFs _ => False | _ => True end) /\
                       calls_only (fun A c => match c with AxiosPost _ _ _ => True | _ => False end) e)
             (analyze_and_reply lib flag text).
Proof.
  unfold analyze_and_reply.
  repeat first [ by_class (analysis_events lib) | walk1 ]; now cbn.
Qed.

Lemma cleanup_events (p : path) :
  emits_only (fun e => touches_only p e /\
                       calls_only (fun A c => False) e)
             (cleanup (Ext := Ext) p).
Proof. unfold cleanup. walk; now cbn. Qed.

End HandlerClasses.

Section RouteClasses.
Context {Ext : Type} (lib : Library Ext).
Implicit Types w : World Ext.

Lemma handler_touches_only (ep : Endpoint) (req : Request) (f : File) :
  file req = Some f ->
  emits_only (touches_only (file_path f)) (handler lib ep req).
Proof.
  intros Hfile.
  destruct ep; cbn [handler]; unfold upload_pdf, upload_image;
    rewrite Hfile; cbv zeta;
    repeat first
      [ by_class (extract_pdf_events lib) | by_class (extract_image_events lib)
      | by_class (analyze_and_reply_events lib)
      | by_class (cleanup_events (Ext := Ext))
      | walk1 ]; now cbn.
Qed.

Lemma upload_image_calls (req : Request) (f : File) :
  file req = Some f ->
  emits_only (calls_only (image_call (file_path f))) (upload_image lib req).
Proof.
  intros Hfile. unfold upload_image. rewrite Hfile. cbv zeta.
  repeat first
    [ by_class (extract_image_events lib)
    | by_class (analyze_and_reply_events lib)
    | by_class (cleanup_events (Ext := Ext))
    | walk1 ]; now cbn.
Qed.

Lemma upload_pdf_direct_calls (req : Request) (f : File) :
  file req = Some f ->
  isScanned req = false ->
  emits_only (calls_only direct_call) (upload_pdf lib req).
Proof.
  intros Hfile Hscan. unfold upload_pdf. rewrite Hfile. cbv zeta.
  repeat first
    [ apply (extract_pdf_direct_events lib _ _ Hscan)
    | by_class (analyze_and_reply_events lib)
    | by_class (cleanup_events (Ext := Ext))
    | walk1 ]; now cbn.
Qed.

End RouteClasses.

(** X1. Every file-system call a request makes names its own staged path:
    multer's write, the handler's read, the existence test and the removal.
    A request without a file part makes no file-system call at all. *)
Theorem route_touches_only_staged_path {Ext : Type} (lib : Library Ext)
    (dirname : jsstring) (ep : Endpoint) (u : Upload) (w : World Ext) :
  let t := emitted (app_post lib dirname ep u w) in
  match file_part u with
  | Some part =>
      Forall (touches_only
                (uploadDir dirname ++ js "/" ++
                 (of_N (clock w) ++ js "_" ++ originalname part))) t
  | None => Forall (fun e => match e with EFs _ => False | _ => True end) t
  end.
Proof.
  cbv zeta. destruct (file_part u) as [part|] eqn:Hpart.
  - rewrite (app_post_staged lib dirname ep u part w Hpart). cbn [emitted].
    constructor; [reflexivity|].
    now apply (handler_touches_only lib ep _ {| file_path := _ |}).
  - rewrite (app_post_no_file lib dirname ep u w Hpart).
    cbn [emitted]. now repeat constructor.
Qed.

(** X2. The image route calls two things only, whatever the form fields
    say: the OCR, on the staged path and in English, and the post to the
    generative-language endpoint.  It never calls pdf-parse, pdf.js or
    node-canvas; without a file part it calls nothing. *)
Theorem image_route_calls {Ext : Type} (lib : Library Ext)
    (dirname : jsstring) (u : Upload) (w : World Ext) :
  let t := emitted (app_post lib dirname UploadImage u w) in
  match file_part u with
  | Some part =>
      Forall (calls_only
                (image_call (uploadDir dirname ++ js "/" ++
                             (of_N (clock w) ++ js "_" ++ originalname part)))) t
  | None => Forall (calls_only (fun A c => False)) t
  end.
Proof.
  cbv zeta. destruct (file_part u) as [part|] eqn:Hpart.
  - rewrite (app_post_staged lib dirname UploadImage u part w Hpart).
    cbn [emitted handler]. constructor; [exact I|].
    now apply (upload_image_calls lib _ {| file_path := _ |}).
  - rewrite (app_post_no_file lib dirname UploadImage u w Hpart).
    cbn [emitted]. now repeat constructor.
Qed.

(** X3. On [/upload-pdf], when the scanned field is not the string "true",
    the only library calls are pdf-parse and the post to the endpoint:
    direct mode never opens the document with pdf.js, never draws on a
    canvas and never runs the OCR. *)
Theorem direct_mode_calls {Ext : Type} (lib : Library Ext)
    (dirname : jsstring) (u : Upload) (w : World Ext) :
  fields u !! js "scanned" <> Some (VString (js "true")) ->
  Forall (calls_only direct_call) (emitted (app_post lib dirname UploadPdf u w)).
Proof.
  intros Hfield.
  assert (forall fl, isScanned {| file := fl; body := fields u |} = false) as Hscan.
  { intros fl. destruct (isScanned _) eqn:E; [|reflexivity].
    exfalso. apply Hfield. unfold isScanned, field in E. cbn [body] in E.
    apply strict_eq_string_true in E.
    destruct (fields u !! js "scanned"); unfold default, id in E; congruence. }
  destruct (file_part u) as [part|] eqn:Hpart.
  - rewrite (app_post_staged lib dirname UploadPdf u part w Hpart).
    cbn [emitted handler]. constructor; [exact I|].
    refine (upload_pdf_direct_calls lib {| file := Some _; body := fields u |} _ eq_refl (Hscan _) _).
  - rewrite (app_post_no_file lib dirname UploadPdf u w Hpart).
    cbn [emitted]. now repeat constructor.
Qed.

Lemma direct_mode_calls_witness :
  Forall (calls_only direct_call)
    (emitted (app_post (Demo.library 1 Demo.pdf (Ok (js "Sale")) (Ok (Demo.candidates (js "ok"))))
                       (js "/srv") UploadPdf (Demo.upload "false" "true")
                       (Demo.world (Some (js "k")) [Byte.x25]))).
Proof.
  apply direct_mode_calls. vm_compute. discriminate.
Defined.


(** X5. A request leaves the staging directory as it found it, minus its
    own staged path: no file of another request is created, changed or
    removed, and none of its own is left.  The API key is not changed. *)
Theorem route_leaves_no_file {Ext : Type} (lib : Library Ext)
    (dirname : jsstring) (ep : Endpoint) (u : Upload) (w : World Ext) :
  let o := app_post lib dirname ep u w in
  files (final o) =
    match file_part u with
    | Some part =>
        delete (uploadDir dirname ++ js "/" ++
                (of_N (clock w) ++ js "_" ++ originalname part)) (files w)
    | None => files w
    end /\
  GEMINI_API_KEY (final o) = GEMINI_API_KEY w.
Proof.
  cbv zeta. destruct (file_part u) as [part|] eqn:Hpart.
  - rewrite (app_post_staged lib dirname ep u part w Hpart). cbn [final].
    match goal with |- context [handler lib ep ?r ?w1] =>
      destruct (handler_seen lib ep r {| file_path := _ |} w1 eq_refl) as (_ & Hf & Hk & _)
    end.
    cbv zeta in Hf, Hk. cbn [file_path files GEMINI_API_KEY] in Hf, Hk.
    rewrite Hf, Hk. split; [apply delete_insert_eq | reflexivity].
  - now rewrite (app_post_no_file lib dirname ep u w Hpart).
Qed.

Section AnalysisResult.
Context {Ext : Type} (lib : Library Ext).
Implicit Types w : World Ext.

Lemma truthy_not_nullish (v : jsval) :
  JsVal.truthy v = true -> JsVal.nullish v = false.
Proof. now destruct v. Qed.

(** An optional access that gives something went through a real value,
    and read it as the plain access does. *)
Lemma opt_member_not_nullish (x : jsval) (name : string) :
  JsVal.nullish (opt_member x name) = false ->
  JsVal.nullish x = false /\ opt_member x name = JsVal.member x (js name).
Proof. unfold opt_member. destruct (JsVal.nullish x); [discriminate | easy]. Qed.

Lemma opt_first_not_nullish (x : jsval) :
  JsVal.nullish (opt_first x) = false ->
  JsVal.nullish x = false /\ opt_first x = JsVal.first x.
Proof. unfold opt_first. destruct (JsVal.nullish x); [discriminate | easy]. Qed.

Lemma try_catch_rethrow_ok {A} (m : M Ext A) (h : exn -> M Ext A) w (a : A) :
  (forall e w', exists e', value (h e w') = Throw e') ->
  value (try_catch m h w) = Ok a -> value (m w) = Ok a.
Proof.
  intros Hh. rewrite value_try_catch. destruct (value (m w)) as [x|e]; [easy|].
  destruct (Hh e (final (m w))) as [e' ->]. discriminate.
Qed.

Lemma get_member_ok (x : jsval) (name : string) w (v : jsval) :
  value (get_member (Ext := Ext) x name w) = Ok v ->
  JsVal.nullish x = false /\ v = JsVal.member x (js name).
Proof.
  unfold get_member. destruct (JsVal.nullish x); cbn; [discriminate|].
  intros H. now inversion H.
Qed.

Lemma get_member_final (x : jsval) (name : string) w :
  final (get_member (Ext := Ext) x name w) = w.
Proof. unfold get_member. now destruct (JsVal.nullish x). Qed.

End AnalysisResult.

(** A completed call of the analysis client, taken apart. *)
Lemma analysis_ok_inv {Ext : Type} (lib : Library Ext)
    (text : jsstring) (w : World Ext) (a : jsval) :
  value (getSocialMediaAnalysis lib text w) = Ok a ->
  exists key data,
    GEMINI_API_KEY w = Some key /\ key <> [] /\
    fst (lib _ (AxiosPost (apiUrl key) (requestBody text) requestConfig) (ext w))
      = Ok data /\
    a = JsVal.member
          (JsVal.first
             (JsVal.member
                (JsVal.member (JsVal.first (JsVal.member data (js "candidates")))
                              (js "content"))
                (js "parts")))
          (js "text") /\
    JsVal.truthy a = true.
Proof.
  unfold getSocialMediaAnalysis. intros H.
  rewrite value_bind in H. cbn [value final emitted console_log emit] in H.
  rewrite value_bind in H. cbn [value final emitted env_GEMINI_API_KEY] in H.
  destruct (GEMINI_API_KEY w) as [[|c key]|] eqn:Hkey;
    cbn [default from_option id JsString.truthy negb throw value] in H;
    try discriminate.
  exists (c :: key). apply try_catch_rethrow_ok in H.
  2:{ intros e w'. eexists. rewrite value_bind. reflexivity. }
  apply bind_ok_inv in H as (data & Hdata & H & _). exists data.
  split; [reflexivity|]. split; [discriminate|]. split; [exact Hdata|].
  cbv beta in H.
  apply bind_ok_inv in H as (cands & Hc & H & _). cbv beta zeta in H.
  apply get_member_ok in Hc as [_ ->].
  destruct (JsVal.truthy (opt_first (JsVal.member data (js "candidates"))))
    eqn:Hcand; cbn [andb] in H.
  2:{ rewrite value_bind in H. discriminate. }
  destruct (JsVal.truthy (opt_member _ "text")) eqn:Htext.
  2:{ rewrite value_bind in H. discriminate. }
  apply truthy_not_nullish, opt_first_not_nullish in Hcand as [_ Hcand].
  rewrite Hcand in *.
  pose proof (truthy_not_nullish _ Htext) as Hn.
  apply opt_member_not_nullish in Hn as [Hn Ht3].
  apply opt_first_not_nullish in Hn as [Hn Hf2].
  pose proof Hn as Hn2.
  apply opt_member_not_nullish in Hn as [Hn Hm1].
  rewrite Ht3, Hf2, Hm1 in Htext.
  apply bind_ok_inv in H as (u0 & _ & H & _). cbv beta in H.
  cbn [final console_log emit] in H.
  apply bind_ok_inv in H as (content & Hco & H & _). cbv beta in H.
  apply get_member_ok in Hco as [_ ->]. rewrite get_member_final in H.
  apply bind_ok_inv in H as (parts & Hpa & H & _). cbv beta in H.
  apply get_member_ok in Hpa as [_ ->]. rewrite get_member_final in H.
  apply bind_ok_inv in H as (part & Hp & H & _). cbv beta in H.
  unfold get_first in Hp. rewrite Hm1 in Hn2. rewrite Hn2 in Hp.
  cbn in Hp. injection Hp as <-.
  apply get_member_ok in H as [_ ->]. split; [reflexivity | exact Htext].
Qed.

(** X6. What the analysis client returns: it needs a non-empty key, the
    post must have answered, and the value is the [text] of the first part
    of the content of the first candidate of the answer, which is never
    null, undefined or an empty string. *)
Theorem analysis_result_is_first_candidate_text {Ext : Type} (lib : Library Ext)
    (text : jsstring) (w : World Ext) (a : jsval) :
  value (getSocialMediaAnalysis lib text w) = Ok a ->
  exists key data,
    GEMINI_API_KEY w = Some key /\ key <> [] /\
    fst (lib _ (AxiosPost (apiUrl key) (requestBody text) requestConfig) (ext w))
      = Ok data /\
    a = JsVal.member
          (JsVal.first
             (JsVal.member
                (JsVal.member (JsVal.first (JsVal.member data (js "candidates")))
                              (js "content"))
                (js "parts")))
          (js "text") /\
    JsVal.truthy a = true.
Proof.
  intros H.
  destruct (analysis_ok_inv lib text w a H) as (key & data & Hk & Hne & Hd & Ha & Ht).
  exists key, data. repeat split; assumption.
Qed.

Lemma analysis_result_is_first_candidate_text_witness :
  exists key data,
    GEMINI_API_KEY (Demo.world (Some (js "k")) [Byte.x25]) = Some key /\ key <> [] /\
    fst (Demo.library 1 Demo.pdf (Ok (js "Sale")) (Ok (Demo.candidates (js "ok"))) _
           (AxiosPost (apiUrl key) (requestBody (js "Sale")) requestConfig) 0%nat)
      = Ok data /\
    VString (js "ok") =
      JsVal.member
        (JsVal.first
           (JsVal.member
              (JsVal.member (JsVal.first (JsVal.member data (js "candidates")))
                            (js "content"))
              (js "parts")))
        (js "text") /\
    JsVal.truthy (VString (js "ok")) = true.
Proof.
  apply (analysis_result_is_first_candidate_text
           (Demo.library 1 Demo.pdf (Ok (js "Sale")) (Ok (Demo.candidates (js "ok"))))
           (js "Sale") (Demo.world (Some (js "k")) [Byte.x25]) (VString (js "ok"))).
  vm_compute. reflexivity.
Defined.

(** X7. In a 200 reply the analysis is null exactly when the analysis
    client was not called: a called client that completes never yields
    null, so null always means "skipped", never "analysed, nothing found". *)
Theorem null_analysis_means_skipped {Ext : Type} (lib : Library Ext)
    (ep : Endpoint) (req : Request) (f : File) (w : World Ext)
    (text : jsstring) (a : jsval) :
  file req = Some f ->
  In (200%nat, BJson text a) (responses (emitted (handler lib ep req w))) ->
  (a = VNull <-> analysis_attempted (emitted (handler lib ep req w)) = false).
Proof.
  intros Hfile Hin.
  pose proof (handler_attempted lib ep req f w Hfile) as Ha.
  pose proof (handler_responses lib ep req f w Hfile) as Hr. cbv zeta in Hr.
  rewrite Ha. rewrite Hr in Hin. clear Ha Hr.
  destruct (value (extraction lib ep req (file_path f) w)) as [t|e].
  - destruct (wants_analysis (shouldAnalyze req) t).
    + destruct (value (getSocialMediaAnalysis lib t _)) as [r|e] eqn:Hg.
      * destruct Hin as [Hin|[]]. injection Hin as <- <-.
        destruct (analysis_ok_inv lib _ _ _ Hg) as (_ & _ & _ & _ & _ & _ & Ht).
        split; [intros ->; discriminate Ht | discriminate].
      * destruct Hin as [Hin|[]]. discriminate.
    + destruct Hin as [Hin|[]]. injection Hin as <- <-. now split.
  - destruct Hin as [Hin|[]]. discriminate.
Qed.

Lemma null_analysis_means_skipped_witness :
  VNull = VNull <->
  analysis_attempted
    (emitted (upload_pdf
                (Demo.library 1 Demo.pdf (Ok (js "Sale")) (Ok VNull))
                (Demo.request "false" "false")
                (Demo.world None [Byte.x25]))) = false.
Proof.
  apply (null_analysis_means_skipped
           (Demo.library 1 Demo.pdf (Ok (js "Sale")) (Ok VNull))
           UploadPdf (Demo.request "false" "false") {| file_path := Demo.staged |}
           (Demo.world None [Byte.x25]) (js "Hello World") VNull eq_refl).
  vm_compute. left. reflexivity.
Defined.

(** X8. How the analysis client fails.  Without a usable key (undefined or
    the empty string) it throws the configuration error.  With one, every
    failure is thrown again as a new error, without HTTP response, whose
    message is "AI analysis failed: " followed by the message of its cause:
    the error of the post when the post failed; the TypeError of reading
    [candidates] when the answer has a null or undefined body; and in every
    other case "Failed to parse analysis from the AI response.". *)
Theorem analysis_errors_are_wrapped {Ext : Type} (lib : Library Ext)
    (text : jsstring) (w : World Ext) (e : exn) :
  value (getSocialMediaAnalysis lib text w) = Throw e ->
  match GEMINI_API_KEY w with
  | Some (c :: key) =>
      e = Error (js "AI analysis failed: " ++
                 message
                   match fst (lib _ (AxiosPost (apiUrl (c :: key)) (requestBody text)
                                               requestConfig) (ext w)) with
                   | Throw cause => cause
                   | Ok data =>
                       if JsVal.nullish data
                       then TypeError "read" (typeof_nullish data) "candidates"
                       else Error (js "Failed to parse analysis from the AI response.")
                   end)
  | _ => e = Error (js "GEMINI_API_KEY is not defined in the environment variables.")
  end.
Proof.
  unfold getSocialMediaAnalysis. intros H.
  rewrite value_bind in H. cbn [value final emitted console_log emit] in H.
  rewrite value_bind in H. cbn [value final emitted env_GEMINI_API_KEY] in H.
  destruct (GEMINI_API_KEY w) as [[|c key]|];
    cbn [default from_option id JsString.truthy negb throw value] in H;
    try (now injection H as <-).
  rewrite value_try_catch in H.
  match type of H with
  | context [value (bind ?m ?k ?w1)] =>
      destruct (value (bind m k w1)) as [x|cause] eqn:Hbody
  end; [discriminate|].
  rewrite value_bind in H. cbn [value final emitted console_error emit throw] in H.
  injection H as <-. f_equal. f_equal. f_equal.
  rewrite value_bind in Hbody. cbn [value final extern ext] in Hbody.
  destruct (fst (lib _ _ _)) as [data|err]; [|now injection Hbody as <-].
  rewrite value_bind in Hbody. unfold get_member at 1 in Hbody.
  destruct (JsVal.nullish data) eqn:Hnull;
    cbn [value final throw ret] in Hbody; [now injection Hbody as <-|].
  cbv zeta in Hbody.
  destruct (JsVal.truthy (opt_first (JsVal.member data (js "candidates"))))
    eqn:Hcand; cbn [andb] in Hbody.
  2:{ rewrite value_bind in Hbody.
      cbn [value final console_error emit throw] in Hbody. now injection Hbody as <-. }
  destruct (JsVal.truthy (opt_member _ "text")) eqn:Htext.
  2:{ rewrite value_bind in Hbody.
      cbn [value final console_error emit throw] in Hbody. now injection Hbody as <-. }
  exfalso.
  pose proof (truthy_not_nullish _ Hcand) as Hc.
  apply truthy_not_nullish in Htext.
  apply opt_member_not_nullish in Htext as [Hpart _].
  pose proof Hpart as Hn.
  apply opt_first_not_nullish in Hn as [Hparts Hf2].
  rewrite Hf2 in Hpart.
  pose proof Hparts as Hn.
  apply opt_member_not_nullish in Hn as [Hcontent Hm1].
  rewrite Hm1 in Hparts, Hpart.
  revert Hbody.
  rewrite value_bind. cbn [value final console_log emit].
  rewrite value_bind. unfold get_member at 1. rewrite Hc. cbn [value final ret].
  rewrite value_bind. unfold get_member at 1. rewrite Hcontent. cbn [value final ret].
  rewrite value_bind. unfold get_first. rewrite Hparts. cbn [value final ret].
  unfold get_member. rewrite Hpart. discriminate.
Qed.

Lemma analysis_errors_are_wrapped_witness :
  Error (js "AI analysis failed: timeout") =
  Error (js "AI analysis failed: " ++
         message
           match fst (Demo.library 1 Demo.pdf (Ok (js "Sale"))
                        (Throw (Error (js "timeout"))) _
                        (AxiosPost (apiUrl (js "k")) (requestBody (js "Sale"))
                                   requestConfig) 0%nat) with
           | Throw cause => cause
           | Ok data =>
               if JsVal.nullish data
               then TypeError "read" (typeof_nullish data) "candidates"
               else Error (js "Failed to parse analysis from the AI response.")
           end).
Proof.
  apply (analysis_errors_are_wrapped
           (Demo.library 1 Demo.pdf (Ok (js "Sale")) (Throw (Error (js "timeout"))))
           (js "Sale") (Demo.world (Some (js "k")) [Byte.x25])
           (Error (js "AI analysis failed: timeout"))).
  vm_compute. reflexivity.
Defined.

Section NetworkCalls.
Context {Ext : Type} (lib : Library Ext).

Lemma no_calls_no_network (t : list Event) :
  Forall (calls_only (fun A c => False)) t -> List.filter is_network_call t = [].
Proof.
  induction 1 as [|e t He _ IH]; [reflexivity|].
  cbn [List.filter]. destruct e as [? | ? | ? | ? c ? | ? ?]; cbn; try exact IH.
  destruct He.
Qed.

End NetworkCalls.

(** X9. The analysis client posts to the endpoint at most once per call,
    and never retries.  With a non-empty key it posts exactly once, whatever
    the answer: to the URL that ends with the key, with the prompt built from
    the text as body.  With no key, or the empty string as key, it posts
    nothing. *)
Theorem analysis_posts_at_most_once {Ext : Type} (lib : Library Ext)
    (text : jsstring) (w : World Ext) :
  List.filter is_network_call (emitted (getSocialMediaAnalysis lib text w)) =
  match GEMINI_API_KEY w with
  | Some (c :: key) =>
      [ECall (AxiosPost (apiUrl (c :: key)) (requestBody text) requestConfig)
             (fst (lib _ (AxiosPost (apiUrl (c :: key)) (requestBody text)
                                    requestConfig) (ext w)))]
  | _ => []
  end.
Proof.
  unfold getSocialMediaAnalysis.
  rewrite emitted_bind. cbn [value final emitted console_log emit app].
  rewrite emitted_bind. cbn [value final emitted env_GEMINI_API_KEY app].
  destruct (GEMINI_API_KEY w) as [[|c key]|];
    cbn [default from_option id JsString.truthy negb throw value emitted];
    try reflexivity.
  rewrite emitted_try_catch, emitted_bind, value_bind.
  cbn [extern value final emitted app].
  cbn [List.filter is_network_call]. f_equal.
  rewrite List.filter_app.
  match goal with |- ?l1 ++ ?l2 = [] =>
    assert (l1 = []) as ->; [|assert (l2 = []) as ->; [|reflexivity]]
  end.
  - destruct (fst (lib _ _ _)) as [data|e]; [|reflexivity].
    apply no_calls_no_network.
    match goal with |- Forall _ (emitted (?k ?w1)) =>
      assert (emits_only (calls_only (fun A c => False)) k) as Hk
        by (walk; now cbn);
      apply Hk
    end.
  - destruct (fst (lib _ _ _)) as [data|e].
    + match goal with |- context [value (?k ?w1)] => destruct (value (k w1)) end;
        [reflexivity|].
      apply no_calls_no_network.
      match goal with |- Forall _ (emitted (?k ?w1)) =>
        assert (emits_only (calls_only (fun A c => False)) k) as Hk
          by (walk; now cbn);
        apply Hk
      end.
    + apply no_calls_no_network.
      match goal with |- Forall _ (emitted (?k ?w1)) =>
        assert (emits_only (calls_only (fun A c => False)) k) as Hk
          by (walk; now cbn);
        apply Hk
      end.
Qed.

(** ** The allow-list *)

Section Cors.

Lemma indexOf_from_found (l : list jsstring) (x : jsval) (i : Z) :
  (0 <= i)%Z ->
  (i <= indexOf_from l x i)%Z <-> exists s, x = VString s /\ In s l.
Proof.
  revert i. induction l as [|y l IH]; intros i Hi; cbn [indexOf_from].
  - split; [lia | intros (s & _ & [])].
  - destruct (JsVal.strict_eq_string x y) eqn:E.
    + apply strict_eq_string_true in E. split; [|lia].
      intros _. exists y. split; [exact E | now left].
    + assert (x <> VString y) as Hne.
      { intros Hx. apply strict_eq_string_true in Hx. congruence. }
      split.
      * intros H. assert (i + 1 <= indexOf_from l x (i + 1))%Z as H'.
        { destruct (Z_le_gt_dec (i + 1) (indexOf_from l x (i + 1))); [easy|].
          exfalso.
          assert (forall l' j, (0 <= j)%Z ->
                    indexOf_from l' x j = (-1)%Z \/ (j <= indexOf_from l' x j)%Z) as Hge.
          { clear. induction l' as [|z l' IH']; intros j Hj; cbn [indexOf_from];
              [now left|].
            destruct (JsVal.strict_eq_string x z); [right; lia|].
            destruct (IH' (j + 1)%Z ltac:(lia)); [now left | right; lia]. }
          destruct (Hge l (i + 1)%Z ltac:(lia)); lia. }
        apply IH in H'; [|lia]. destruct H' as (s & Hs & Hin).
        exists s. split; [exact Hs | now right].
      * intros (s & Hs & [Hy | Hin]); [congruence|].
        assert (i + 1 <= indexOf_from l x (i + 1))%Z
          by (apply IH; [lia | now exists s]).
        lia.
Qed.

Lemma indexOf_from_none (l : list jsstring) (x : jsval) (i : Z) :
  (0 <= i)%Z -> indexOf_from l x i = (-1)%Z \/ (i <= indexOf_from l x i)%Z.
Proof.
  revert i. induction l as [|z l IH]; intros i Hi; cbn [indexOf_from]; [now left|].
  destruct (JsVal.strict_eq_string x z); [right; lia|].
  destruct (IH (i + 1)%Z ltac:(lia)); [now left | right; lia].
Qed.

End Cors.

(** X10. The CORS check lets a request through exactly when it carries no
    origin (the header is undefined or empty) or its origin is, character for
    character, one of the entries of the allow-list; every other origin gets
    the error "Not allowed by CORS". *)
Theorem cors_origin_allowed_iff (origin : jsval) :
  (corsOptions_origin origin = Ok true <->
   JsVal.truthy origin = false \/ exists s, origin = VString s /\ In s whitelist) /\
  (corsOptions_origin origin <> Ok true ->
   corsOptions_origin origin = Throw (Error (js "Not allowed by CORS"))).
Proof.
  unfold corsOptions_origin, indexOf.
  pose proof (indexOf_from_found whitelist origin 0 ltac:(lia)) as Hfound.
  pose proof (indexOf_from_none whitelist origin 0 ltac:(lia)) as Hnone.
  destruct (Z.eqb_spec (indexOf_from whitelist origin 0) (-1)) as [Heq|Hne];
    cbn [negb orb].
  - destruct (JsVal.truthy origin); cbn [negb]; split.
    + split; [discriminate|]. intros [H|H]; [discriminate|].
      apply Hfound in H. lia.
    + reflexivity.
    + split; auto.
    + congruence.
  - split; [|congruence]. split; [|reflexivity].
    intros _. right. apply Hfound. destruct Hnone; [congruence | assumption].
Qed.

(** The deployed front end and the two development servers pass; the same
    host over another scheme, or with a trailing slash, does not. *)
Example cors_examples :
  corsOptions_origin (VString (js "http://localhost:5173")) = Ok true /\
  corsOptions_origin VUndefined = Ok true /\
  corsOptions_origin (VString (js "https://localhost:5173"))
    = Throw (Error (js "Not allowed by CORS")) /\
  corsOptions_origin (VString (js "http://localhost:3000/"))
    = Throw (Error (js "Not allowed by CORS")).
Proof. vm_compute. repeat split. Qed.

(** ** Staged file names *)

Section FileNames.

Lemma js_inj (a b : string) : js a = js b -> a = b.
Proof.
  revert b. induction a as [|x a IH]; intros [|y b]; cbn; try easy.
  intros H. injection H as Hxy Hab. f_equal; [|now apply IH].
  rewrite <- (ascii_N_embedding x), <- (ascii_N_embedding y). now rewrite Hxy.
Qed.

Lemma to_uint_nonnil (n : N) : N.to_uint n <> Decimal.Nil.
Proof. destruct n; [discriminate | apply DecimalPos.Unsigned.to_uint_nonnil]. Qed.

Lemma of_N_inj (a b : N) : of_N a = of_N b -> a = b.
Proof.
  unfold of_N. intros H. apply js_inj in H.
  apply (f_equal NilZero.uint_of_string) in H.
  rewrite !NilZero.usu in H by apply to_uint_nonnil.
  injection H as H. now apply DecimalN.Unsigned.to_uint_inj.
Qed.

Lemma digits_no_underscore (d : Decimal.uint) :
  Forall (fun c => c <> 95) (js (NilEmpty.string_of_uint d)).
Proof.
  induction d; cbn; constructor; try assumption; discriminate.
Qed.

Lemma of_N_no_underscore (n : N) : Forall (fun c => c <> 95) (of_N n).
Proof.
  unfold of_N, NilZero.string_of_uint.
  destruct (N.to_uint n) eqn:E;
    try (rewrite <- E; apply digits_no_underscore).
  cbn. constructor; [discriminate | constructor].
Qed.

Lemma split_at_first (c : N) (d1 d2 r1 r2 : list N) :
  Forall (fun x => x <> c) d1 -> Forall (fun x => x <> c) d2 ->
  d1 ++ c :: r1 = d2 ++ c :: r2 -> d1 = d2 /\ r1 = r2.
Proof.
  intros H1. revert d2. induction H1 as [|x d1 Hx _ IH]; intros d2 H2 H.
  - destruct H2 as [|y d2 Hy _]; cbn in H.
    + now injection H.
    + injection H as Hc _. congruence.
  - destruct H2 as [|y d2 Hy H2]; cbn in H.
    + injection H as Hc _. congruence.
    + injection H as -> H. apply IH in H as [-> ->]; easy.
Qed.

End FileNames.

Lemma staged_name_inj (dirname : jsstring) (n1 n2 : N) (name1 name2 : jsstring) :
  uploadDir dirname ++ js "/" ++ (of_N n1 ++ js "_" ++ name1) =
  uploadDir dirname ++ js "/" ++ (of_N n2 ++ js "_" ++ name2) ->
  n1 = n2 /\ name1 = name2.
Proof.
  intros H. apply app_inv_head in H. cbn [js app] in H. injection H as H.
  apply split_at_first in H as [Hn Hname]; try apply of_N_no_underscore.
  split; [now apply of_N_inj | exact Hname].
Qed.

(** X11. Two uploads that carry a file are staged under the same path
    exactly when they arrive in the same millisecond with the same original
    file name: the time stamp and the name can both be read back from the
    staged name, so uploads that differ in either never share a file. *)
Theorem staged_paths_collide_iff {Ext : Type} (dirname : jsstring)
    (u1 u2 : Upload) (part1 part2 : FilePart) (w1 w2 : World Ext)
    (req1 req2 : Request) :
  file_part u1 = Some part1 ->
  file_part u2 = Some part2 ->
  value (upload_single dirname u1 w1) = Ok req1 ->
  value (upload_single dirname u2 w2) = Ok req2 ->
  (file req1 = file req2 <->
   clock w1 = clock w2 /\ originalname part1 = originalname part2).
Proof.
  intros H1 H2. unfold upload_single. rewrite H1, H2.
  intros Hr1 Hr2. cbn in Hr1, Hr2. injection Hr1 as <-. injection Hr2 as <-.
  cbn [file]. split.
  - intros H. injection H as H. now apply staged_name_inj in H.
  - now intros [-> ->].
Qed.

Lemma staged_paths_collide_iff_witness :
  Some {| file_path := Demo.staged |} = Some {| file_path := Demo.staged |} <->
  clock Demo.empty_world = clock (Demo.world None []) /\
  js "post.pdf" = js "post.pdf".
Proof.
  apply (staged_paths_collide_iff (js "/srv")
           (Demo.upload "true" "true") (Demo.upload "false" "false")
           {| originalname := js "post.pdf"; content := [Byte.x25] |}
           {| originalname := js "post.pdf"; content := [Byte.x25] |}
           Demo.empty_world (Demo.world None [])
           {| file := Some {| file_path := Demo.staged |};
              body := fields (Demo.upload "true" "true") |}
           {| file := Some {| file_path := Demo.staged |};
              body := fields (Demo.upload "false" "false") |}
           eq_refl eq_refl); vm_compute; reflexivity.
Defined.

(** ** The canvas factory *)

Section CanvasFactory.
Context {Ext : Type} (lib : Library Ext).
Implicit Types w : World Ext.

Lemma destroy_result (cc cc' : CanvasAndContext) w :
  value (NodeCanvasFactory_destroy lib cc w) = Ok cc' ->
  cc' = {| canvas := None; context := None |} /\
  exists c, canvas cc = Some c /\
    emitted (NodeCanvasFactory_destroy lib cc w) =
    [ECall (SetWidth c 0) (Ok tt); ECall (SetHeight c 0) (Ok tt)].
Proof.
  destruct cc as [[c|] ctx].
  - intros H. pose proof (destroy_ok lib c ctx w cc' H) as He.
    split; [|now exists c].
    unfold NodeCanvasFactory_destroy in H. cbn [canvas] in H.
    apply bind_ok_inv in H as (? & _ & H & _).
    apply bind_ok_inv in H as (? & _ & H & _).
    apply bind_ok_inv in H as (? & _ & H & _).
    apply bind_ok_inv in H as (? & _ & H & _).
    cbn in H. now injection H as <-.
  - unfold NodeCanvasFactory_destroy. rewrite value_bind. cbn. discriminate.
Qed.

End CanvasFactory.

(** X12. A wrapper can be destroyed once.  A [destroy] that completes has
    set the width and the height of the wrapper's canvas to 0, in this order,
    and leaves a wrapper with neither canvas nor context; on that wrapper
    both [destroy] and [reset] throw a TypeError before any library call and
    leave the world as it is. *)
Theorem canvas_destroyed_once {Ext : Type} (lib : Library Ext)
    (cc cc' : CanvasAndContext) (w w' : World Ext) (wd ht : Q) :
  value (NodeCanvasFactory_destroy lib cc w) = Ok cc' ->
  (exists c, canvas cc = Some c /\
     emitted (NodeCanvasFactory_destroy lib cc w) =
     [ECall (SetWidth c 0) (Ok tt); ECall (SetHeight c 0) (Ok tt)]) /\
  cc' = {| canvas := None; context := None |} /\
  NodeCanvasFactory_destroy lib cc' w' =
    {| value := Throw (TypeError "set" "null" "width"); final := w'; emitted := [] |} /\
  NodeCanvasFactory_reset lib cc' wd ht w' =
    {| value := Throw (TypeError "set" "null" "width"); final := w'; emitted := [] |}.
Proof.
  intros H. apply destroy_result in H as (-> & c & Hc & He).
  split; [now exists c|]. split; [reflexivity|]. split; reflexivity.
Qed.

Lemma canvas_destroyed_once_witness :
  NodeCanvasFactory_destroy
    (Demo.library 1 Demo.pdf (Ok (js "Sale")) (Ok VNull))
    {| canvas := None; context := None |} Demo.empty_world =
  {| value := Throw (TypeError "set" "null" "width");
     final := Demo.empty_world; emitted := [] |}.
Proof.
  apply (canvas_destroyed_once
           (Demo.library 1 Demo.pdf (Ok (js "Sale")) (Ok VNull))
           {| canvas := Some {| canvas_ref := 7 |};
              context := Some {| context_ref := 8 |} |}
           {| canvas := None; context := None |}
           Demo.empty_world Demo.empty_world 0 0).
  vm_compute. reflexivity.
Defined.

(** X13. [destroy] is [reset] to 0 by 0 followed by dropping the canvas
    and the context: the two make the same library calls, leave the same
    world, and one throws exactly when the other does, with the same error. *)
Theorem destroy_is_reset_to_zero {Ext : Type} (lib : Library Ext)
    (cc : CanvasAndContext) (w : World Ext) :
  NodeCanvasFactory_destroy lib cc w =
  bind (NodeCanvasFactory_reset lib cc 0 0)
       (fun _ => ret {| canvas := None; context := None |}) w.
Proof.
  unfold NodeCanvasFactory_destroy, NodeCanvasFactory_reset.
  destruct (canvas cc) as [c|]; [|reflexivity].
  unfold bind, nonnull, ret, extern. cbn [value final emitted ext].
  destruct (lib unit (SetWidth c 0) (ext w)) as [[[]|e1] x1]; cbn; [|reflexivity].
  destruct (lib unit (SetHeight c 0) x1) as [[[]|e2] x2]; cbn; [|reflexivity].
  reflexivity.
Qed.

(** ** The order of pages, completed or not *)

Section PageOrder.
Context {Ext : Type} (lib : Library Ext).
Implicit Types w : World Ext.

Lemma page_requests_app (s t : list Event) :
  page_requests (s ++ t) = page_requests s ++ page_requests t.
Proof. apply flat_map_app. Qed.

Lemma no_page_requests (t : list Event) :
  Forall (calls_only not_get_page) t -> page_requests t = [].
Proof.
  induction 1 as [|e t He _ IH]; [reflexivity|].
  unfold page_requests in *. cbn [flat_map].
  destruct e as [? | ? | ? | ? c ? | ? ?]; cbn; try exact IH.
  destruct c; cbn in He; try exact IH. destruct He.
Qed.

(** One turn asks for its page once, whether it completes or not. *)
Lemma ocr_page_requests (doc : PDFDocument) (i : nat) (acc : jsstring) w :
  page_requests (emitted (ocr_page lib doc i acc w)) = [i].
Proof.
  unfold ocr_page. cbv zeta.
  rewrite emitted_bind. cbn [value final emitted console_log emit app].
  rewrite emitted_bind. cbn [extern value final emitted app].
  unfold page_requests at 1. cbn [flat_map]. fold page_requests.
  cbn [app]. f_equal.
  destruct (fst (lib _ (GetPage doc i) (ext w))) as [page|e]; [|reflexivity].
  apply no_page_requests.
  match goal with |- Forall _ (emitted (?k ?w1)) =>
    assert (emits_only (calls_only not_get_page) k) as Hk;
      [|apply Hk]
  end.
  repeat first
    [ by_class (create_events lib) | by_class (destroy_events lib) | walk1 ];
    now cbn.
Qed.

(** The loop asks for pages [i], [i+1], ... without gap or repeat, stops
    at the first turn that throws, and completes only after all of them. *)
Lemma ocr_pages_requests (doc : PDFDocument) (left i : nat) (acc : jsstring) w :
  exists k,
    (k <= left)%nat /\
    page_requests (emitted (ocr_pages lib doc left i acc w)) = seq i k /\
    ((k < left)%nat -> exists e, value (ocr_pages lib doc left i acc w) = Throw e) /\
    (forall t, value (ocr_pages lib doc left i acc w) = Ok t -> k = left).
Proof.
  revert i acc w. induction left as [|left IH]; intros i acc w; cbn [ocr_pages].
  - exists 0%nat. split; [lia|]. split; [reflexivity|]. split; [lia | reflexivity].
  - rewrite emitted_bind, value_bind, page_requests_app, ocr_page_requests.
    destruct (value (ocr_page lib doc i acc w)) as [t1|e] eqn:Hturn.
    + destruct (IH (S i) t1 (final (ocr_page lib doc i acc w)))
        as (k & Hk & Hreq & Hstop & Hdone).
      exists (S k). rewrite Hreq. split; [lia|]. split; [reflexivity|]. split.
      * intros Hlt. apply Hstop. lia.
      * intros t Ht. f_equal. now apply (Hdone t).
    + exists 1%nat. split; [lia|]. split; [reflexivity|]. split.
      * intros _. now exists e.
      * discriminate.
Qed.

End PageOrder.

(** X14. In scanned mode, once pdf.js has opened the staged file as a
    document of N pages, the pages asked of it are 1, 2, ..., k in this
    order, each once, for some k up to N, whether the run completes or not.
    The run stops at the first page whose turn throws: with k below N the
    extraction has failed, and an extraction that completes has asked for
    all N pages. *)
Theorem pages_requested_in_order {Ext : Type} (lib : Library Ext)
    (req : Request) (p : path) (w : World Ext) (b : bytes) (doc : PDFDocument) :
  files w !! p = Some b ->
  isScanned req = true ->
  fst (lib _ (GetDocument b) (ext w)) = Ok doc ->
  exists k,
    (k <= numPages doc)%nat /\
    page_requests (emitted (extract_pdf lib req p w)) = seq 1 k /\
    ((k < numPages doc)%nat -> exists e, value (extract_pdf lib req p w) = Throw e) /\
    (forall text, value (extract_pdf lib req p w) = Ok text -> k = numPages doc).
Proof.
  intros Hb Hscan Hdoc.
  destruct (extract_pdf_scanned lib req p b doc w Hb Hscan Hdoc) as (Hv & He).
  cbv zeta in Hv, He. rewrite Hv, He.
  match goal with |- context [ocr_pages lib doc ?n ?i ?acc ?w1] =>
    destruct (ocr_pages_requests lib doc n i acc w1) as (k & Hk & Hreq & Hstop & Hdone)
  end.
  exists k. split; [exact Hk|]. split; [|split; assumption].
  rewrite !page_requests_app, Hreq.
  match goal with |- context [match ?v with Ok _ => _ | Throw _ => _ end] =>
    destruct v
  end; cbn [page_requests flat_map app]; now rewrite app_nil_r.
Qed.

Lemma pages_requested_in_order_witness :
  exists k,
    (k <= 2)%nat /\
    page_requests
      (emitted (extract_pdf
                  (Demo.library 2 Demo.pdf (Throw (Error (js "worker died"))) (Ok VNull))
                  (Demo.request "true" "false") Demo.staged
                  (Demo.world None [Byte.x25]))) = seq 1 k.
Proof.
  destruct (pages_requested_in_order
              (Demo.library 2 Demo.pdf (Throw (Error (js "worker died"))) (Ok VNull))
              (Demo.request "true" "false") Demo.staged
              (Demo.world None [Byte.x25]) [Byte.x25]
              {| numPages := 2; doc_ref := 1 |}
              eq_refl eq_refl eq_refl)
    as (k & Hk & Hreq & _).
  exists k. split; [exact Hk | exact Hreq].
Defined.

(** ** What a request sends out *)

Section Outbound.
Context {Ext : Type} (lib : Library Ext).
Implicit Types w : World Ext.

Lemma offline_no_network (t : list Event) :
  Forall (calls_only offline_call) t -> List.filter is_network_call t = [].
Proof.
  induction 1 as [|e t He _ IH]; [reflexivity|].
  cbn [List.filter]. destruct e as [? | ? | ? | ? c ? | ? ?]; cbn; try exact IH.
  destruct c; cbn in He; try exact IH. destruct He.
Qed.

Lemma extraction_offline (ep : Endpoint) (req : Request) (p : path) :
  emits_only (calls_only offline_call) (extraction lib ep req p).
Proof.
  destruct ep; cbn [extraction].
  - by_class (extract_pdf_events lib).
  - unfold extract_image. cbv zeta. walk; now cbn.
Qed.

Lemma cleanup_offline (p : path) :
  emits_only (calls_only offline_call) (cleanup (Ext := Ext) p).
Proof. by_class (cleanup_events (Ext := Ext)). Qed.

Lemma analyze_and_reply_network (flag : bool) (text : jsstring) w :
  List.filter is_network_call (emitted (analyze_and_reply lib flag text w)) =
  if wants_analysis flag text
  then List.filter is_network_call (emitted (getSocialMediaAnalysis lib text w))
  else [].
Proof.
  unfold analyze_and_reply. rewrite emitted_bind, List.filter_app.
  destruct (wants_analysis flag text).
  - destruct (value (getSocialMediaAnalysis lib text w)); cbn; now rewrite app_nil_r.
  - reflexivity.
Qed.

End Outbound.

(** X15. What a request sends to the generative-language endpoint.  With a
    file staged, the only posts of a handler are those of its one analysis
    call: made when extraction produced a text and the analysis is wanted,
    on that text exactly as extracted (trimming decides whether to analyse,
    it does not change what is sent), in the world extraction left.  When
    extraction fails or the analysis is skipped, nothing is posted. *)
Theorem handler_posts_only_the_extracted_text {Ext : Type} (lib : Library Ext)
    (ep : Endpoint) (req : Request) (f : File) (w : World Ext) :
  file req = Some f ->
  let ex := extraction lib ep req (file_path f) w in
  List.filter is_network_call (emitted (handler lib ep req w)) =
  match value ex with
  | Ok text =>
      if wants_analysis (shouldAnalyze req) text
      then List.filter is_network_call
             (emitted (getSocialMediaAnalysis lib text (final ex)))
      else []
  | Throw _ => []
  end.
Proof.
  intros Hfile. cbv zeta.
  pose proof (extraction_offline lib ep req (file_path f) w) as Hex.
  apply offline_no_network in Hex.
  assert (forall w', List.filter is_network_call
                       (emitted (cleanup (Ext := Ext) (file_path f) w')) = [])
    as Hcl by (intros w'; apply offline_no_network, cleanup_offline).
  assert (emitted (handler lib ep req w) =
          ELog [LStr (received_line ep)] ::
          emitted (try_finally
                     (try_catch
                        (bind (extraction lib ep req (file_path f))
                              (analyze_and_reply lib (shouldAnalyze req)))
                        (fun err =>
                           bind (console_error
                                   [LStr (match ep with
                                          | UploadPdf => js "[FATAL ERROR] in /upload-pdf:"
                                          | UploadImage => js "[FATAL ERROR] in /upload-image:"
                                          end); LExn err])
                                (fun _ => res_send 500 (failure_text ep))))
                     (cleanup (file_path f)) w)) as ->.
  { destruct ep; cbn [handler extraction failure_text received_line];
      unfold upload_pdf, upload_image; rewrite Hfile; cbv zeta;
      rewrite emitted_bind; reflexivity. }
  cbn [List.filter is_network_call]. unfold try_finally. cbn [emitted].
  rewrite List.filter_app, Hcl, app_nil_r.
  rewrite emitted_try_catch, emitted_bind, value_bind, !List.filter_app, Hex.
  cbn [app].
  destruct (value (extraction lib ep req (file_path f) w)) as [text|e].
  - rewrite analyze_and_reply_network.
    destruct (value (analyze_and_reply lib _ text _)); cbn; now rewrite app_nil_r.
  - reflexivity.
Qed.

Lemma handler_posts_only_the_extracted_text_witness :
  List.filter is_network_call
    (emitted (handler
                (Demo.library 1 Demo.pdf (Ok (js " Sale ")) (Ok (Demo.candidates (js "ok"))))
                UploadImage (Demo.request "false" "true")
                (Demo.world (Some (js "k")) [Byte.x25])))
  = [ECall (AxiosPost (apiUrl (js "k")) (requestBody (js " Sale ")) requestConfig)
           (Ok (Demo.candidates (js "ok")))].
Proof.
  rewrite (handler_posts_only_the_extracted_text
             (Demo.library 1 Demo.pdf (Ok (js " Sale ")) (Ok (Demo.candidates (js "ok"))))
             UploadImage (Demo.request "false" "true") {| file_path := Demo.staged |}
             (Demo.world (Some (js "k")) [Byte.x25]) eq_refl).
  vm_compute. reflexivity.
Defined.

(** ** The form *)

Section Form.

Lemma or_else_truthy (a b : jsval) :
  JsVal.truthy b = true -> JsVal.truthy (Frontend.or_else a b) = true.
Proof. unfold Frontend.or_else. intros Hb. now destruct (JsVal.truthy a) eqn:Ha. Qed.

Definition other (ep : Endpoint) : Endpoint :=
  match ep with UploadPdf => UploadImage | UploadImage => UploadPdf end.

End Form.

(** X16. With a file chosen, a click disables the button of its block
    until the promise settles; whatever the promise settles to (a body, a
    rejection with or without a response, even a null body) the button is
    enabled again and the block shows exactly one of two things: a non-empty
    text with no error, or a non-empty error with no text and no analysis.
    The other block keeps its text, its error and its button as they were. *)
Theorem form_request_settles (ep : Endpoint) (st : Frontend.State)
    (chosen : Frontend.BrowserFile) (outcome : result jsval) :
  chosen_file ep st = Some chosen ->
  let st1 := fst (start ep st) in
  let st2 := fst (settle ep outcome st1) in
  button_disabled ep st1 = true /\
  button_disabled ep st2 = false /\
  ((JsVal.truthy (shown_text ep st2) = true /\ shown_error ep st2 = VString []) \/
   (JsVal.truthy (shown_error ep st2) = true /\
    shown_text ep st2 = VString [] /\ shown_analysis ep st2 = VString [])) /\
  shown_text (other ep) st2 = shown_text (other ep) st /\
  shown_error (other ep) st2 = shown_error (other ep) st /\
  button_disabled (other ep) st2 = button_disabled (other ep) st.
Proof.
  intros Hchosen. cbv zeta.
  destruct ep; cbn [chosen_file] in Hchosen;
    cbn [start settle other];
    unfold Frontend.uploadPdf, Frontend.uploadImage; rewrite Hchosen;
    cbv zeta; cbn [fst snd];
    unfold Frontend.pdf_settle, Frontend.image_settle,
      Frontend.pdf_then, Frontend.image_then,
      Frontend.pdf_catch, Frontend.image_catch,
      Frontend.pdf_finally, Frontend.image_finally.
  all: destruct (Frontend.analyzePdf st), (Frontend.analyzeImage st).
  all: destruct outcome as [data|err];
    [ destruct (JsVal.nullish data);
      [| destruct (JsVal.truthy (JsVal.member data (js "analysis"))) ] |].
  all: cbv zeta; cbn [fst snd].
  all: split; [reflexivity|]; split; [reflexivity|];
    split; [|repeat split; reflexivity].
  all: match goal with |- context [Frontend.or_else ?a ?b] =>
         let X := fresh "X" in
         remember (Frontend.or_else a b) as X eqn:HX;
         assert (JsVal.truthy X = true) as HXt
           by (subst X; apply or_else_truthy; reflexivity);
         clear HX
       end.
  all: first
    [ left; split; [exact HXt | reflexivity]
    | right; split; [exact HXt | split; reflexivity] ].
Qed.

Lemma form_request_settles_witness :
  button_disabled UploadPdf
    (fst (settle UploadPdf (Throw (Error (js "Network Error")))
            (fst (start UploadPdf
                    (Frontend.dropPdf [{| Frontend.name := js "post.pdf";
                                          Frontend.bits := [Byte.x25] |}]
                                      Frontend.initial))))) = false.
Proof.
  apply (form_request_settles UploadPdf
           (Frontend.dropPdf [{| Frontend.name := js "post.pdf";
                                 Frontend.bits := [Byte.x25] |}] Frontend.initial)
           {| Frontend.name := js "post.pdf"; Frontend.bits := [Byte.x25] |}
           (Throw (Error (js "Network Error"))) eq_refl).
Defined.

(** ** The form with the server behind it *)

Section EndToEnd.
Context {Ext : Type} (lib : Library Ext).
Implicit Types w : World Ext.







(** What the forms send: one file part, under [file], and the check boxes
    as text fields. *)
Lemma form_request (reported : jsstring -> jsstring) (ep : Endpoint)
    (st : Frontend.State) (post : Frontend.Post) :
  snd (start ep st) = Some post ->
  exists chosen,
    chosen_file ep st = Some chosen /\
    file_parts (wire reported (Frontend.post_data post)) =
      [{| fieldname := js "file"; filename := reported (Frontend.name chosen);
          stream := Frontend.bits chosen |}] /\
    text_fields (wire reported (Frontend.post_data post)) =
      match ep with
      | UploadPdf =>
          <[js "scanned" := VString (of_bool (Frontend.pdfScanned st))]>
            (<[js "analyze" := VString (of_bool (Frontend.analyzePdf st))]> ∅)
      | UploadImage =>
          <[js "analyze" := VString (of_bool (Frontend.analyzeImage st))]> ∅
      end.
Proof.
  destruct ep; cbn [start chosen_file];
    unfold Frontend.uploadPdf, Frontend.uploadImage.
  - destruct (Frontend.pdfFile st) as [chosen|]; [|discriminate].
    cbv zeta. cbn [snd]. intros H. injection H as <-. now exists chosen.
  - destruct (Frontend.imageFile st) as [chosen|]; [|discriminate].
    cbv zeta. cbn [snd]. intros H. injection H as <-. now exists chosen.
Qed.



End EndToEnd.

(** X17. The check boxes reach the handler intact.  multer lets every
    request of the forms through and hands the handler a body in which
    [analyze] reads back as the state of the analysis box and, on the PDF
    block, [scanned] as the state of the scanned box; the image block sends
    no [scanned] field, which reads as false.  The chosen file is stored
    under the time stamp and the file name busboy reports for it, unless
    that name is empty: then multer drops the file and [req.file] stays
    undefined. *)
Theorem form_flags_reach_the_handler {Ext : Type} (dirname : jsstring)
    (reported : jsstring -> jsstring)
    (ep : Endpoint) (st : Frontend.State) (post : Frontend.Post)
    (w : World Ext) :
  snd (start ep st) = Some post ->
  exists chosen req,
    chosen_file ep st = Some chosen /\
    value (single dirname (wire reported (Frontend.post_data post)) w) = Ok req /\
    shouldAnalyze req = analysis_wanted ep st /\
    isScanned req =
      match ep with
      | UploadPdf => Frontend.pdfScanned st
      | UploadImage => false
      end /\
    file req =
      match reported (Frontend.name chosen) with
      | [] => None
      | c :: name =>
          Some {| file_path := uploadDir dirname ++ js "/" ++
                               (of_N (clock w) ++ js "_" ++ (c :: name)) |}
      end.
Proof.
  intros Hpost.
  destruct (form_request reported ep st post Hpost) as (chosen & Hchosen & Hparts & Hfields).
  exists chosen. unfold single. rewrite Hparts, Hfields. clear Hparts Hfields Hpost.
  cbn [single_parts]. unfold named. cbn [filename fieldname stream file body].
  destruct (reported (Frontend.name chosen)) as [|c name].
  - eexists. split; [exact Hchosen|]. split; [reflexivity|].
    unfold shouldAnalyze, isScanned, field. cbn [body file].
    destruct ep; cbn [analysis_wanted].
    + destruct (Frontend.analyzePdf st), (Frontend.pdfScanned st);
        repeat split; vm_compute; reflexivity.
    + destruct (Frontend.analyzeImage st); repeat split; vm_compute; reflexivity.
  - change (JsString.eqb (js "file") (js "file")) with true. cbv iota.
    eexists. split; [exact Hchosen|]. split; [reflexivity|].
    unfold shouldAnalyze, isScanned, field. cbn [body file].
    destruct ep; cbn [analysis_wanted].
    + destruct (Frontend.analyzePdf st), (Frontend.pdfScanned st);
        repeat split; vm_compute; reflexivity.
    + destruct (Frontend.analyzeImage st); repeat split; vm_compute; reflexivity.
Qed.

Lemma form_flags_reach_the_handler_witness :
  exists chosen req,
    chosen_file UploadPdf
      (Frontend.togglePdfScanned
         (Frontend.dropPdf [{| Frontend.name := js "post.pdf";
                               Frontend.bits := [Byte.x25] |}]
                           Frontend.initial)) = Some chosen /\
    value (single (js "/srv")
             (wire (fun name => name)
                [(js "file", Frontend.FFile {| Frontend.name := js "post.pdf";
                                               Frontend.bits := [Byte.x25] |});
                 (js "scanned", Frontend.FString (js "true"));
                 (js "analyze", Frontend.FString (js "false"))])
             Demo.empty_world) = Ok req /\
    shouldAnalyze req = false /\
    isScanned req = true /\
    file req = Some {| file_path := Demo.staged |}.
Proof.
  destruct (form_flags_reach_the_handler (js "/srv") (fun name => name) UploadPdf
           (Frontend.togglePdfScanned
              (Frontend.dropPdf [{| Frontend.name := js "post.pdf";
                                    Frontend.bits := [Byte.x25] |}]
                                Frontend.initial))
           {| Frontend.post_url := Frontend.API_URL ++ js "/upload-pdf";
              Frontend.post_data :=
                [(js "file", Frontend.FFile {| Frontend.name := js "post.pdf";
                                               Frontend.bits := [Byte.x25] |});
                 (js "scanned", Frontend.FString (js "true"));
                 (js "analyze", Frontend.FString (js "false"))] |}
           Demo.empty_world eq_refl)
    as (chosen & req & Hchosen & Hreq & Hanalyze & Hscanned & Hfile).
  exists chosen, req. split; [exact Hchosen|]. split; [exact Hreq|].
  split; [exact Hanalyze|]. split; [exact Hscanned|].
  injection Hchosen as <-. exact Hfile.
Defined.


(** ** A page whose OCR fails *)

Section FailedOcr.
Context {Ext : Type} (lib : Library Ext).
Implicit Types w : World Ext.

(** A sequence either went through its first part, or stopped there. *)
Lemma bind_cases {A B} (m : M Ext A) (k : A -> M Ext B) w :
  (exists a, value (m w) = Ok a /\
     bind m k w = {| value := value (k a (final (m w)));
                     final := final (k a (final (m w)));
                     emitted := emitted (m w) ++ emitted (k a (final (m w))) |}) \/
  (exists e, value (m w) = Throw e /\
     bind m k w = {| value := Throw e; final := final (m w);
                     emitted := emitted (m w) |}).
Proof.
  unfold bind. destruct (value (m w)) as [a|e]; [left; now exists a | right; now exists e].
Qed.

Lemma extern_emitted {A} (c : Extern A) w :
  emitted (extern lib c w) = [ECall c (value (extern lib c w))].
Proof. reflexivity. Qed.

Lemma no_recognize_no_failure (t : list Event) :
  Forall (calls_only not_recognize) t -> existsb is_failed_ocr t = false.
Proof.
  induction 1 as [|e t He _ IH]; [reflexivity|].
  cbn [existsb]. rewrite IH, orb_false_r.
  destruct e as [? | ? | ? | ? c ? | ? ?]; try reflexivity.
  destruct c; cbn in He; try reflexivity. destruct He.
Qed.

Lemma create_no_recognize (wd ht : Q) :
  emits_only (calls_only not_recognize) (NodeCanvasFactory_create lib wd ht).
Proof. unfold NodeCanvasFactory_create. walk; now cbn. Qed.

Lemma destroy_no_recognize (cc : CanvasAndContext) :
  emits_only (calls_only not_recognize) (NodeCanvasFactory_destroy lib cc).
Proof. unfold NodeCanvasFactory_destroy. walk; now cbn. Qed.

End FailedOcr.

(** Take the first statement of the sequence in the goal, in both ways. *)
Ltac first_statement a e Hv :=
  match goal with
  | |- context [bind ?m ?k ?w] =>
      let Hb := fresh "Hb" in
      destruct (bind_cases m k w) as [(a & Hv & Hb) | (e & Hv & Hb)];
      rewrite Hb; clear Hb; cbn [value final emitted]; cbv beta
  end.

Section FailedOcrTurn.
Context {Ext : Type} (lib : Library Ext).
Implicit Types w : World Ext.

(** A turn in which the OCR threw: it throws, its canvas was created, and
    neither the canvas nor the page was given back. *)
Lemma failed_ocr_turn (doc : PDFDocument) (i : nat) (acc : jsstring) w :
  existsb is_failed_ocr (emitted (ocr_page lib doc i acc w)) = true ->
  (exists e, value (ocr_page lib doc i acc w) = Throw e) /\
  count is_canvas_created (emitted (ocr_page lib doc i acc w)) = 1%nat /\
  count is_canvas_released (emitted (ocr_page lib doc i acc w)) = 0%nat /\
  count is_page_cleanup (emitted (ocr_page lib doc i acc w)) = 0%nat.
Proof.
  unfold ocr_page. cbv zeta.
  first_statement u0 e0 H0; [|discriminate H0].
  cbn [console_log emit emitted final].
  first_statement page e1 H1; rewrite extern_emitted, H1; [|discriminate].
  first_statement vp e2 H2; rewrite extern_emitted, H2; [|discriminate].
  first_statement cc e3 H3.
  2:{ intros H. exfalso. cbn [app existsb is_failed_ocr orb] in H.
      rewrite (no_recognize_no_failure _ (create_no_recognize lib _ _ _)) in H.
      discriminate. }
  destruct (create_ok lib _ _ _ _ H3) as (c & ctx & -> & ->).
  cbn [canvas context].
  first_statement u1 e4 H4; rewrite extern_emitted, H4; [|discriminate].
  first_statement c' e5 H5; [|discriminate H5].
  cbn in H5. injection H5 as <-. cbn [nonnull ret emitted final].
  first_statement png e6 H6; rewrite extern_emitted, H6; [|discriminate].
  first_statement text e7 H7; rewrite extern_emitted, H7.
  - first_statement u2 e8 H8; rewrite extern_emitted, H8; [|discriminate].
    first_statement cc' e9 H9; intros H; exfalso; revert H;
      cbn [app existsb is_failed_ocr orb ret emitted];
      rewrite ?existsb_app;
      rewrite (no_recognize_no_failure _ (destroy_no_recognize lib _ _));
      discriminate.
  - intros _. split; [now exists e7|]. repeat split.
Qed.

End FailedOcrTurn.

Section FailedOcrLoop.
Context {Ext : Type} (lib : Library Ext).
Implicit Types w : World Ext.

Lemma count_app (q : Event -> bool) (s t : list Event) :
  count q (s ++ t) = (count q s + count q t)%nat.
Proof. unfold count. now rewrite List.filter_app, length_app. Qed.

(** A loop in which an OCR threw stops at that page, with one canvas and
    one page more taken than given back. *)
Lemma failed_ocr_loop (doc : PDFDocument) (left i : nat) (acc : jsstring) w :
  existsb is_failed_ocr (emitted (ocr_pages lib doc left i acc w)) = true ->
  (exists e, value (ocr_pages lib doc left i acc w) = Throw e) /\
  count is_canvas_created (emitted (ocr_pages lib doc left i acc w)) =
    S (count is_canvas_released (emitted (ocr_pages lib doc left i acc w))) /\
  count is_canvas_created (emitted (ocr_pages lib doc left i acc w)) =
    S (count is_page_cleanup (emitted (ocr_pages lib doc left i acc w))).
Proof.
  revert i acc w. induction left as [|left IH]; intros i acc w; cbn [ocr_pages].
  - discriminate.
  - rewrite emitted_bind, value_bind, !count_app, existsb_app.
    destruct (value (ocr_page lib doc i acc w)) as [t1|e] eqn:Hturn.
    + destruct (ocr_page_complete lib doc i acc t1 w Hturn) as (r & -> & _).
      change (existsb is_failed_ocr (page_events doc i r)) with false.
      change (count is_canvas_created (page_events doc i r)) with 1%nat.
      change (count is_canvas_released (page_events doc i r)) with 1%nat.
      change (count is_page_cleanup (page_events doc i r)) with 1%nat.
      cbn [orb]. intros H. apply IH in H as (He & Hc & Hp).
      split; [exact He|]. split; lia.
    + cbn [existsb]. rewrite orb_false_r. intros H.
      apply failed_ocr_turn in H as (_ & Hc & Hr & Hp).
      rewrite Hc, Hr, Hp. cbn. split; [now exists e|]. split; reflexivity.
Qed.

End FailedOcrLoop.

(** X19. When the OCR of a page throws in scanned mode, the page loop stops
    there and the request gets the 500; the canvas and the page of that turn
    are not given back: over the extraction there is exactly one canvas
    created that [destroy] never reached, and one page more fetched and
    rendered than cleaned up.  (The releases sit at the end of the loop body,
    not in a [finally].) *)
Theorem failed_ocr_leaves_canvas_and_page {Ext : Type} (lib : Library Ext)
    (req : Request) (f : File) (w : World Ext) (b : bytes) (doc : PDFDocument) :
  file req = Some f ->
  files w !! file_path f = Some b ->
  isScanned req = true ->
  fst (lib _ (GetDocument b) (ext w)) = Ok doc ->
  let t := emitted (extract_pdf lib req (file_path f) w) in
  existsb is_failed_ocr t = true ->
  count is_canvas_created t = S (count is_canvas_released t) /\
  count is_canvas_created t = S (count is_page_cleanup t) /\
  responses (emitted (upload_pdf lib req w)) =
    [(500%nat, BText (js "Failed to process PDF."))].
Proof.
  intros Hfile Hb Hscan Hdoc. cbv zeta.
  destruct (extract_pdf_scanned lib req (file_path f) b doc w Hb Hscan Hdoc)
    as (Hv & He).
  cbv zeta in Hv, He. rewrite He. rewrite !count_app, !existsb_app.
  match goal with |- context [ocr_pages lib doc ?n ?i ?acc ?w1] =>
    pose proof (failed_ocr_loop lib doc n i acc w1) as Hloop
  end.
  cbn [existsb is_failed_ocr orb].
  match goal with |- context [match ?v with Ok _ => _ | Throw _ => _ end] =>
    assert (existsb is_failed_ocr
              match v with
              | Ok _ => [ELog [LStr (js "Text extraction complete.")]]
              | Throw _ => []
              end = false) as -> by now destruct v
  end.
  rewrite orb_false_r. intros H. apply Hloop in H as ((e & Hthrow) & Hc & Hp).
  rewrite Hthrow in *.
  change (count ?q [ELog ?a; EFs ?o; ELog ?c; ECall (GetDocument ?x) ?r]) with 0%nat.
  change (count ?q []) with 0%nat.
  split; [lia|]. split; [lia|].
  pose proof (handler_responses lib UploadPdf req f w Hfile) as Hr.
  cbv zeta in Hr. cbn [handler extraction failure_text] in Hr.
  now rewrite Hr, Hv.
Qed.

Lemma failed_ocr_leaves_canvas_and_page_witness :
  responses
    (emitted (upload_pdf
                (Demo.library 2 Demo.pdf (Throw (Error (js "worker died"))) (Ok VNull))
                (Demo.request "true" "false") (Demo.world None [Byte.x25])))
  = [(500%nat, BText (js "Failed to process PDF."))].
Proof.
  apply (failed_ocr_leaves_canvas_and_page
           (Demo.library 2 Demo.pdf (Throw (Error (js "worker died"))) (Ok VNull))
           (Demo.request "true" "false") {| file_path := Demo.staged |}
           (Demo.world None [Byte.x25]) [Byte.x25]
           {| numPages := 2; doc_ref := 1 |}
           eq_refl eq_refl eq_refl eq_refl).
  vm_compute. reflexivity.
Defined.
